(** * Classified-ads backend: the views of [ads/views.py]

    A shallow embedding of the request handlers of the ads application:
    the ad listing pipeline (filters, ordering, pagination, projection),
    ad creation, image upload, category deletion and the permission gate
    of the REST views.  The framework calls the handlers make (query
    dictionaries, queryset filters, [Paginator], [get_object_or_404],
    permission checks) are embedded next to them, each under the name it
    has in the source. *)

From Stdlib Require Import ZArith List String Ascii Bool Lia.
From Stdlib Require Import Sorting.Sorted Sorting.Permutation.
Import ListNotations.

Local Open Scope Z_scope.
Local Open Scope list_scope.

(** ** Exceptions and results *)

(** The exceptions a handler can raise.  [Http404] is turned into a 404
    response by the framework, the permission exceptions into 401/403,
    every other one into a 500 response. *)
Inductive exception : Type :=
| Http404
| NotAuthenticated
| PermissionDenied
| KeyError
| ValueError
| EmptyPage
| ZeroDivisionError
| DoesNotExist
| ValidationError
| TypeError
| JSONDecodeError
| IntegrityError.

Inductive result (A : Type) : Type :=
| Ok (a : A)
| Raise (e : exception).
Arguments Ok {A} a.
Arguments Raise {A} e.

Definition bind {A B : Type} (r : result A) (k : A -> result B) : result B :=
  match r with
  | Ok a => k a
  | Raise e => Raise e
  end.

Declare Scope result_scope.
Delimit Scope result_scope with result.
Notation "x <- r ;; k" := (bind r (fun x => k))
  (at level 100, r at next level, right associativity) : result_scope.
Local Open Scope result_scope.

(** [mapM f l] runs [f] over [l] from left to right and stops at the first
    exception. *)
Fixpoint mapM {A B : Type} (f : A -> result B) (l : list A) : result (list B) :=
  match l with
  | [] => Ok []
  | a :: t => b <- f a ;; bs <- mapM f t ;; Ok (b :: bs)
  end.

(** ** JSON values and HTTP responses *)

#[local] Set Warnings "-register-all".

Inductive json : Type :=
| JNull
| JBool (b : bool)
| JInt (z : Z)
| JStr (s : string)
| JList (l : list json)
| JObj (fields : list (string * json)).

Definition keys (j : json) : list string :=
  match j with
  | JObj fields => map fst fields
  | _ => []
  end.

Fixpoint assoc (k : string) (fields : list (string * json)) : option json :=
  match fields with
  | [] => None
  | (k', v) :: t => if String.eqb k k' then Some v else assoc k t
  end.

Definition field (k : string) (j : json) : option json :=
  match j with
  | JObj fields => assoc k fields
  | _ => None
  end.

Record HttpResponse : Type := { status_code : Z; content : json }.

Definition JsonResponse (data : json) (status : Z) : HttpResponse :=
  {| status_code := status; content := data |}.

(** The status the framework answers for an exception that leaves a
    handler (for [NotAuthenticated], 401 with an authentication scheme
    that sends a challenge). *)
Definition exception_status (e : exception) : Z :=
  match e with
  | Http404 => 404
  | NotAuthenticated => 401
  | PermissionDenied => 403
  | ValidationError => 400
  | _ => 500
  end.

Definition response_status (r : result HttpResponse) : Z :=
  match r with
  | Ok resp => status_code resp
  | Raise e => exception_status e
  end.

(** ** Strings: case-insensitive containment and [int()] *)

Definition lower_char (c : ascii) : ascii :=
  let n := nat_of_ascii c in
  if (Nat.leb 65 n && Nat.leb n 90)%bool then ascii_of_nat (n + 32) else c.

Fixpoint lower (s : string) : string :=
  match s with
  | EmptyString => EmptyString
  | String c t => String (lower_char c) (lower t)
  end.

Fixpoint contains (needle hay : string) : bool :=
  (String.prefix needle hay
   || match hay with
      | EmptyString => false
      | String _ t => contains needle t
      end)%bool.

(** The [icontains] lookup: substring match that ignores (ASCII) case. *)
Definition icontains (value pattern : string) : bool :=
  contains (lower pattern) (lower value).

(** The white space [int()] drops around a number: tab, line feed,
    vertical tab, form feed, carriage return and space. *)
Definition is_space (c : ascii) : bool :=
  let n := nat_of_ascii c in
  ((Nat.leb 9 n && Nat.leb n 13) || Nat.eqb n 32)%bool.

Definition is_digit (c : ascii) : bool :=
  let n := nat_of_ascii c in (Nat.leb 48 n && Nat.leb n 57)%bool.

Definition digit_value (c : ascii) : Z := Z.of_nat (nat_of_ascii c) - 48.

Fixpoint lstrip (s : string) : string :=
  match s with
  | EmptyString => EmptyString
  | String c t => if is_space c then lstrip t else s
  end.

Fixpoint rstrip (s : string) : string :=
  match s with
  | EmptyString => EmptyString
  | String c t =>
      match rstrip t with
      | EmptyString => if is_space c then EmptyString else String c EmptyString
      | t' => String c t'
      end
  end.

(** Decimal digits with single underscores between them, as [int()]
    reads them; [seen] tells whether the previous character was a digit. *)
Fixpoint digits (acc : Z) (seen : bool) (s : string) : option Z :=
  match s with
  | EmptyString => if seen then Some acc else None
  | String c t =>
      if is_digit c then digits (10 * acc + digit_value c) true t
      else if (Ascii.eqb c "_" && seen)%bool then digits acc false t
      else None
  end.

(** The number of decimal digits of a string, and the most [int()]
    reads ([sys.int_max_str_digits], 4300 unless it is reset). *)
Fixpoint digit_count (s : string) : Z :=
  match s with
  | EmptyString => 0
  | String c t => (if is_digit c then 1 else 0) + digit_count t
  end.

Definition int_max_str_digits : Z := 4300.

(** Python's [int(s)] on a string: surrounding white space is dropped,
    one sign is allowed, then decimal digits, no more than
    [int_max_str_digits] of them.  [None] stands for [ValueError].  The
    strings are strings of bytes and the digits and spaces read are the
    ASCII ones: a string with a byte of another script is not a number
    here, where Python also reads the decimal digits and the spaces of
    the other scripts; what is stated of a value that is not a number is
    stated of ASCII values. *)
Definition int (s : string) : option Z :=
  let t := rstrip (lstrip s) in
  if digit_count t >? int_max_str_digits then None
  else
    match t with
    | String "-" t => option_map Z.opp (digits 0 false t)
    | String "+" t => digits 0 false t
    | t => digits 0 false t
    end.

(** The string holds ASCII characters only. *)
Fixpoint is_ascii (s : string) : bool :=
  match s with
  | EmptyString => true
  | String c t => (Nat.ltb (nat_of_ascii c) 128 && is_ascii t)%bool
  end.

(** ** Multi-valued dictionaries *)

(** [request.GET] and [request.FILES]: every key carries the list of the
    values given for it, in the order of the request. *)
Definition MultiValueDict (A : Type) : Type := list (string * list A).

Definition QueryDict : Type := MultiValueDict string.

Fixpoint lookup {A : Type} (key : string) (d : MultiValueDict A)
  : option (list A) :=
  match d with
  | [] => None
  | (k, vs) :: t => if String.eqb key k then Some vs else lookup key t
  end.

(** [d.getlist(key, [])]. *)
Definition getlist {A : Type} (key : string) (d : MultiValueDict A) : list A :=
  match lookup key d with
  | Some vs => vs
  | None => []
  end.

(** [d.get(key, None)]: the last value given for [key]. *)
Definition get {A : Type} (key : string) (d : MultiValueDict A) : option A :=
  match lookup key d with
  | Some vs => last (map Some vs) None
  | None => None
  end.

(** [request.GET.get(key, None)] under the test [if ...:]: the value when
    it is present and not the empty string. *)
Definition truthy (v : option string) : option string :=
  match v with
  | Some (String c t) => Some (String c t)
  | _ => None
  end.

(** ** The data model *)

(** Modelled from the spec: the models of [users/models.py] are missing;
    a user has an id, a display name and a set of associated locations,
    each with a name. *)
Module Location.
Record t : Type := { id : Z; name : string }.
End Location.

Module User.
Record t : Type :=
  { id : Z; first_name : string; locations : list Location.t }.
End User.

(** Modelled from the spec: the models of [ads/models.py] are missing;
    the fields are the ones the views read and write.  The specification
    calls the price numeric and orderable; it is taken here as an integer
    column, and what is proved of prices is proved for that choice.
    [image] is the name of the stored file ([None] or the empty name
    when no file is attached). *)
Module Category.
Record t : Type := { id : Z; name : string }.
End Category.

Module Ad.
Record t : Type :=
  { id : Z;
    name : string;
    author_id : Z;
    price : Z;
    description : string;
    is_published : bool;
    category_id : Z;
    image : option string }.

Definition with_image (img : option string) (ad : t) : t :=
  {| id := id ad; name := name ad; author_id := author_id ad;
     price := price ad; description := description ad;
     is_published := is_published ad; category_id := category_id ad;
     image := img |}.
End Ad.

(** The tables of the persistence layer, rows in table order. *)
Record DB : Type :=
  { users : list User.t;
    categories : list Category.t;
    ads : list Ad.t }.

Definition with_ads (l : list Ad.t) (db : DB) : DB :=
  {| users := users db; categories := categories db; ads := l |}.

Definition with_categories (l : list Category.t) (db : DB) : DB :=
  {| users := users db; categories := l; ads := ads db |}.

(** [settings.TOTAL_ON_PAGE], the page size of the list view; the views
    take whatever value the deployment sets. *)
Record Settings : Type := { TOTAL_ON_PAGE : Z }.

(** The file storage service: [save] gives the name under which an
    uploaded file is kept, [url] the access URL of a stored name. *)
Record Storage : Type :=
  { save : string -> string;
    url : string -> string }.

(** ** Requests *)

(** The decoded JSON object of an ad-creation request whose values have
    the types of the fields they fill; a key that is missing is [None]
    and indexing it raises [KeyError].  A body of any other shape, or
    with values of other types, is the matter of
    [AdCreateView_post_json] below, which agrees with [AdCreateView_post]
    on these payloads. *)
Module AdData.
Record t : Type :=
  { name : option string;
    author_id : option Z;
    price : option Z;
    description : option string;
    is_published : option bool;
    category_id : option Z }.
End AdData.

Record UploadedFile : Type := { file_name : string }.

Module Request.
Record t : Type :=
  { GET : QueryDict;
    body : AdData.t;
    FILES : MultiValueDict UploadedFile;
    user : option User.t;
    pk : Z }.
End Request.

(** [d[key]] on a decoded JSON object. *)
Definition getitem {A : Type} (v : option A) : result A :=
  match v with
  | Some a => Ok a
  | None => Raise KeyError
  end.

(** ** Queryset operations *)

(** A value given to an integer field lookup is coerced with [int]; a
    value that is not a number raises [ValueError]. *)
Definition to_python (v : string) : result Z :=
  match int v with
  | Some z => Ok z
  | None => Raise ValueError
  end.

Definition mem (z : Z) (l : list Z) : bool := existsb (Z.eqb z) l.

(** [.filter(category_id__in=values)] *)
Definition filter_category_id__in (values : list string) (qs : list Ad.t)
  : result (list Ad.t) :=
  ids <- mapM to_python values ;;
  Ok (filter (fun ad => mem (Ad.category_id ad) ids) qs).

(** [.filter(name__icontains=text)] *)
Definition filter_name__icontains (text : string) (qs : list Ad.t)
  : list Ad.t :=
  filter (fun ad => icontains (Ad.name ad) text) qs.

Definition get_user (db : DB) (pk : Z) : option User.t :=
  find (fun u => User.id u =? pk) (users db).

(** The locations of the ad's author whose name matches. *)
Definition matching_locations (db : DB) (text : string) (ad : Ad.t)
  : list Location.t :=
  match get_user db (Ad.author_id ad) with
  | Some u => filter (fun l => icontains (Location.name l) text) (User.locations u)
  | None => []
  end.

(** [.filter(author__locations__name__icontains=text)]: a join through
    the author to the locations, one row for every matching location (the
    query carries no [distinct()]). *)
Definition filter_author__locations__name__icontains
  (db : DB) (text : string) (qs : list Ad.t) : list Ad.t :=
  flat_map (fun ad => map (fun _ => ad) (matching_locations db text ad)) qs.

(** [.filter(price__gte=value)] *)
Definition filter_price__gte (value : string) (qs : list Ad.t)
  : result (list Ad.t) :=
  p <- to_python value ;;
  Ok (filter (fun ad => p <=? Ad.price ad) qs).

(** [.filter(price__lte=value)] *)
Definition filter_price__lte (value : string) (qs : list Ad.t)
  : result (list Ad.t) :=
  p <- to_python value ;;
  Ok (filter (fun ad => Ad.price ad <=? p) qs).

Fixpoint insert_by_price (ad : Ad.t) (sorted : list Ad.t) : list Ad.t :=
  match sorted with
  | [] => [ad]
  | h :: t =>
      if Ad.price h <=? Ad.price ad then ad :: sorted
      else h :: insert_by_price ad t
  end.

(** [.order_by("-price")]: highest price first; rows of equal price keep
    their relative order. *)
Definition order_by_price_desc (qs : list Ad.t) : list Ad.t :=
  fold_right insert_by_price [] qs.

(** The order of the list: the price never goes up. *)
Definition price_desc (a b : Ad.t) : Prop := Ad.price a >= Ad.price b.

(** ** [django.core.paginator.Paginator] *)

Module Paginator.

Record t : Type := { object_list : list Ad.t; per_page : Z }.

Record Page : Type := { items : list Ad.t; number : Z }.

Definition count (p : t) : Z := Z.of_nat (List.length (object_list p)).

(** [math.ceil(a / b)], exact on the integers. *)
Definition ceil_div (a b : Z) : Z := - ((- a) / b).

(** [num_pages], with no orphans and an empty first page allowed. *)
Definition num_pages (p : t) : result Z :=
  let hits := Z.max 1 (count p) in
  if per_page p =? 0 then Raise ZeroDivisionError
  else Ok (ceil_div hits (per_page p)).

(** [validate_number] on a number that is already an integer; page 1 is
    let through even when there are fewer pages (an empty first page is
    allowed). *)
Definition validate_number (p : t) (number : Z) : result Z :=
  if number <? 1 then Raise EmptyPage
  else
    n <- num_pages p ;;
    if ((number >? n) && negb (number =? 1))%bool then Raise EmptyPage
    else Ok number.

(** [object_list[bottom:top]] for bounds that are not negative. *)
Definition slice (bottom top : Z) (l : list Ad.t) : list Ad.t :=
  firstn (Z.to_nat (top - bottom)) (skipn (Z.to_nat bottom) l).

(** [page]: the slice of the validated page; a queryset refuses negative
    bounds with [ValueError]. *)
Definition page (p : t) (number : Z) : result Page :=
  number <- validate_number p number ;;
  let bottom := (number - 1) * per_page p in
  let top := bottom + per_page p in
  let top := if top >=? count p then count p else top in
  if ((bottom <? 0) || (top <? 0))%bool then Raise ValueError
  else Ok {| items := slice bottom top (object_list p); number := number |}.

(** [get_page]: a page parameter that is absent or not an integer selects
    page 1, an integer outside the range selects the last page. *)
Definition get_page (p : t) (number : option string) : result Page :=
  match match number with Some s => int s | None => None end with
  | None => page p 1
  | Some n =>
      match validate_number p n with
      | Ok n => page p n
      | Raise EmptyPage => last_page <- num_pages p ;; page p last_page
      | Raise e => Raise e
      end
  end.

End Paginator.

(** ** [AdView]: the list of ads *)

Definition get_author (db : DB) (ad : Ad.t) : result User.t :=
  match get_user db (Ad.author_id ad) with
  | Some u => Ok u
  | None => Raise DoesNotExist
  end.

(** [x.image.url if x.image else None] *)
Definition image_url (storage : Storage) (image : option string) : json :=
  match image with
  | Some (String c t) => JStr (url storage (String c t))
  | _ => JNull
  end.

(** Lines 146-164 of [AdView.get]: the filters, then the ordering. *)
Definition AdView_object_list (db : DB) (request : Request.t)
  : result (list Ad.t) :=
  let GET := Request.GET request in
  let object_list := ads db in
  let categories := getlist "cat" GET in
  object_list <-
    match categories with
    | [] => Ok object_list
    | _ => filter_category_id__in categories object_list
    end ;;
  let object_list :=
    match truthy (get "text" GET) with
    | Some text => filter_name__icontains text object_list
    | None => object_list
    end in
  let object_list :=
    match truthy (get "location" GET) with
    | Some text => filter_author__locations__name__icontains db text object_list
    | None => object_list
    end in
  object_list <-
    match truthy (get "price_from" GET) with
    | Some value => filter_price__gte value object_list
    | None => Ok object_list
    end ;;
  object_list <-
    match truthy (get "price_to" GET) with
    | Some value => filter_price__lte value object_list
    | None => Ok object_list
    end ;;
  Ok (order_by_price_desc object_list).

(** The dictionary built for one ad of the page (lines 171-181). *)
Definition AdView_item (storage : Storage) (db : DB) (ad : Ad.t)
  : result json :=
  author <- get_author db ad ;;
  Ok (JObj [("id", JInt (Ad.id ad));
            ("name", JStr (Ad.name ad));
            ("author_id", JInt (Ad.author_id ad));
            ("author", JStr (User.first_name author));
            ("price", JInt (Ad.price ad));
            ("description", JStr (Ad.description ad));
            ("is_published", JBool (Ad.is_published ad));
            ("category_id", JInt (Ad.category_id ad));
            ("image", image_url storage (Ad.image ad))]%string).

Definition AdView_get (settings : Settings) (storage : Storage)
  (db : DB) (request : Request.t) : result HttpResponse :=
  object_list <- AdView_object_list db request ;;
  let paginator :=
    {| Paginator.object_list := object_list;
       Paginator.per_page := TOTAL_ON_PAGE settings |} in
  let page_number := get "page" (Request.GET request) in
  page_obj <- Paginator.get_page paginator page_number ;;
  ads <- mapM (AdView_item storage db) (Paginator.items page_obj) ;;
  num_pages <- Paginator.num_pages paginator ;;
  let response :=
    JObj [("items", JList ads);
          ("num_pages", JInt num_pages);
          ("total", JInt (Paginator.count paginator))]%string in
  Ok (JsonResponse response 200).

(** ** Single-object lookups and table writes *)

Definition get_category (db : DB) (pk : Z) : option Category.t :=
  find (fun c => Category.id c =? pk) (categories db).

Definition get_ad (db : DB) (pk : Z) : option Ad.t :=
  find (fun ad => Ad.id ad =? pk) (ads db).

(** [get_object_or_404] and the [get_object] of the generic views. *)
Definition get_object_or_404 {A : Type} (found : option A) : result A :=
  match found with
  | Some a => Ok a
  | None => Raise Http404
  end.

(** The id given to a new row: one more than the largest id in use. *)
Definition next_id (l : list Ad.t) : Z :=
  1 + fold_right Z.max 0 (map Ad.id l).

(** [Ad.objects.create(...)]: the new row has no image. *)
Definition Ad_objects_create (name : string) (author : User.t) (price : Z)
  (description : string) (is_published : bool) (category : Category.t)
  (db : DB) : DB * Ad.t :=
  let ad :=
    {| Ad.id := next_id (ads db);
       Ad.name := name;
       Ad.author_id := User.id author;
       Ad.price := price;
       Ad.description := description;
       Ad.is_published := is_published;
       Ad.category_id := Category.id category;
       Ad.image := None |} in
  (with_ads (ads db ++ [ad]) db, ad).

(** [ad.save()] on a row that exists: every column of the row with the
    object's primary key is written from the object. *)
Definition Ad_save (object : Ad.t) (db : DB) : DB :=
  with_ads
    (map (fun ad => if Ad.id ad =? Ad.id object then object else ad) (ads db))
    db.

Definition Ad_delete (object : Ad.t) (db : DB) : DB :=
  with_ads (filter (fun ad => negb (Ad.id ad =? Ad.id object)) (ads db)) db.

(** Modelled from the spec: the [on_delete] rule of [Ad.category],
    declared in [ads/models.py], is missing; deleting a category has no
    cascading effect on the ads. *)
Definition Category_delete (object : Category.t) (db : DB) : DB :=
  with_categories
    (filter (fun c => negb (Category.id c =? Category.id object))
       (categories db))
    db.

(** ** [CategoryDeleteView] *)

Definition CategoryDeleteView_delete (request : Request.t) (db : DB)
  : DB * result HttpResponse :=
  match get_object_or_404 (get_category db (Request.pk request)) with
  | Raise Http404 =>
      (db, Ok (JsonResponse
                 (JObj [("error", JStr "Category not found")]%string) 404))
  | Raise e => (db, Raise e)
  | Ok object =>
      (Category_delete object db,
       Ok (JsonResponse (JObj [("status", JStr "ok")]%string) 200))
  end.

(** ** [AdCreateView] *)

Definition AdCreateView_post (storage : Storage) (request : Request.t)
  (db : DB) : DB * result HttpResponse :=
  let ad_data := Request.body request in
  match
    (author_id <- getitem (AdData.author_id ad_data) ;;
     author <- get_object_or_404 (get_user db author_id) ;;
     category_id <- getitem (AdData.category_id ad_data) ;;
     category <- get_object_or_404 (get_category db category_id) ;;
     name <- getitem (AdData.name ad_data) ;;
     price <- getitem (AdData.price ad_data) ;;
     description <- getitem (AdData.description ad_data) ;;
     is_published <- getitem (AdData.is_published ad_data) ;;
     Ok (name, author, price, description, is_published, category))
  with
  | Raise e => (db, Raise e)
  | Ok (name, author, price, description, is_published, category) =>
      let (db', ad) :=
        Ad_objects_create name author price description is_published
          category db in
      (db',
       Ok (JsonResponse
             (JObj [("id", JInt (Ad.id ad));
                    ("name", JStr (Ad.name ad));
                    ("author_id", JInt (Ad.author_id ad));
                    ("author", JStr (User.first_name author));
                    ("price", JInt (Ad.price ad));
                    ("description", JStr (Ad.description ad));
                    ("is_published", JBool (Ad.is_published ad));
                    ("category_id", JInt (Ad.category_id ad));
                    ("image", image_url storage (Ad.image ad))]%string)
             200))
  end.

(** ** [AdCreateView] on any request body *)

(** What a creation goes through in the models of [users/models.py] and
    [ads/models.py], which the view names and which are parameters here.
    [user_pk v] and [category_pk v] give the key that a lookup [pk=v]
    searches ([None]: a value that no row has) or the exception of the
    lookup; [to_row name price description is_published] gives the
    column values that [Ad.objects.create] writes for these attribute
    values, or the exception of the insert. *)
Record Schema : Type :=
  { user_pk : json -> result (option Z);
    category_pk : json -> result (option Z);
    to_row : json -> json -> json -> json -> result (string * Z * string * bool) }.

(** [json.loads(request.body)]; a body that is not JSON is [None]. *)
Definition loads (body : option json) : result json :=
  match body with
  | Some data => Ok data
  | None => Raise JSONDecodeError
  end.

(** [data[key]] on a decoded body: only an object can be indexed by a
    key. *)
Definition subscript (key : string) (data : json) : result json :=
  match data with
  | JObj fields =>
      match assoc key fields with
      | Some v => Ok v
      | None => Raise KeyError
      end
  | _ => Raise TypeError
  end.

(** [get_object_or_404(Model, pk=v)] for a decoded value [v]. *)
Definition get_by_pk_or_404 {A : Type} (get_row : Z -> option A)
  (key : result (option Z)) : result A :=
  key <- key ;;
  match key with
  | Some pk => get_object_or_404 (get_row pk)
  | None => Raise Http404
  end.

(** [AdCreateView.post] on the body as [json.loads] gives it.  The row
    takes the column values of the schema; the answer is built from the
    attributes of the new object, which hold the values as decoded. *)
Definition AdCreateView_post_json (schema : Schema) (storage : Storage)
  (body : option json) (db : DB) : DB * result HttpResponse :=
  match
    (ad_data <- loads body ;;
     author_id <- subscript "author_id" ad_data ;;
     author <- get_by_pk_or_404 (get_user db) (user_pk schema author_id) ;;
     category_id <- subscript "category_id" ad_data ;;
     category <-
       get_by_pk_or_404 (get_category db) (category_pk schema category_id) ;;
     name <- subscript "name" ad_data ;;
     price <- subscript "price" ad_data ;;
     description <- subscript "description" ad_data ;;
     is_published <- subscript "is_published" ad_data ;;
     row <- to_row schema name price description is_published ;;
     Ok (name, author, price, description, is_published, category, row))
  with
  | Raise e => (db, Raise e)
  | Ok (name, author, price, description, is_published, category,
        (row_name, row_price, row_description, row_is_published)) =>
      let (db', ad) :=
        Ad_objects_create row_name author row_price row_description
          row_is_published category db in
      (db',
       Ok (JsonResponse
             (JObj [("id", JInt (Ad.id ad));
                    ("name", name);
                    ("author_id", JInt (Ad.author_id ad));
                    ("author", JStr (User.first_name author));
                    ("price", price);
                    ("description", description);
                    ("is_published", is_published);
                    ("category_id", JInt (Ad.category_id ad));
                    ("image", image_url storage (Ad.image ad))]%string)
             200))
  end.

(** The schema takes the values of the types of the fields as they are:
    integer keys, strings for the name and the description, an integer
    price, a boolean publication flag. *)
Definition takes_typed_values (schema : Schema) : Prop :=
  (forall pk, user_pk schema (JInt pk) = Ok (Some pk)) /\
  (forall pk, category_pk schema (JInt pk) = Ok (Some pk)) /\
  (forall name price description is_published,
      to_row schema (JStr name) (JInt price) (JStr description)
        (JBool is_published)
      = Ok (name, price, description, is_published)).

(** The JSON object of a typed payload: one entry for every key it
    carries. *)
Definition entry {A : Type} (key : string) (to_json : A -> json)
  (v : option A) : list (string * json) :=
  match v with
  | Some a => [(key, to_json a)]
  | None => []
  end.

Definition encode (data : AdData.t) : json :=
  JObj (entry "name" JStr (AdData.name data)
        ++ entry "author_id" JInt (AdData.author_id data)
        ++ entry "price" JInt (AdData.price data)
        ++ entry "description" JStr (AdData.description data)
        ++ entry "is_published" JBool (AdData.is_published data)
        ++ entry "category_id" JInt (AdData.category_id data)).

(** [BooleanField]: the column value written for an attribute value, on
    a column that takes no null. *)
Definition BooleanField_to_python (v : json) : result bool :=
  match v with
  | JBool b => Ok b
  | JInt 1 => Ok true
  | JInt 0 => Ok false
  | JStr s =>
      if (String.eqb s "t" || String.eqb s "True" || String.eqb s "1")%bool
      then Ok true
      else if (String.eqb s "f" || String.eqb s "False" || String.eqb s "0")%bool
      then Ok false
      else Raise ValidationError
  | JNull => Raise IntegrityError
  | _ => Raise ValidationError
  end.

(** An integer key: the key searched for a decoded value. *)
Definition AutoField_lookup (v : json) : result (option Z) :=
  match v with
  | JInt z => Ok (Some z)
  | JBool b => Ok (Some (if b then 1 else 0))
  | JStr s => z <- to_python s ;; Ok (Some z)
  | JNull => Ok None
  | _ => Raise TypeError
  end.

(** ** [AdUploadImageView] *)

Definition AdUploadImageView_post (storage : Storage) (request : Request.t)
  (db : DB) : DB * result HttpResponse :=
  match get_object_or_404 (get_ad db (Request.pk request)) with
  | Raise Http404 =>
      (db, Ok (JsonResponse (JObj [("error", JStr "Ads not found")]%string) 404))
  | Raise e => (db, Raise e)
  | Ok object =>
      let image :=
        match get "image" (Request.FILES request) with
        | Some f => Some (save storage (file_name f))
        | None => None
        end in
      let object := Ad.with_image image object in
      let db' := Ad_save object db in
      (db',
       author <- get_author db' object ;;
       Ok (JsonResponse
             (JObj [("id", JInt (Ad.id object));
                    ("name", JStr (Ad.name object));
                    ("author_id", JInt (Ad.author_id object));
                    ("author", JStr (User.first_name author));
                    ("price", JInt (Ad.price object));
                    ("description", JStr (Ad.description object));
                    ("is_published", JBool (Ad.is_published object));
                    ("category_id", JInt (Ad.category_id object));
                    ("image", image_url storage (Ad.image object))]%string)
             200))
  end.

(** ** The REST views of an ad: [AdDetailView], [AdUpdateView],
    [AdDeleteView] *)

Record Permission : Type :=
  { has_permission : Request.t -> bool;
    has_object_permission : Request.t -> Ad.t -> bool }.

(** [rest_framework.permissions.IsAuthenticated] *)
Definition IsAuthenticated : Permission :=
  {| has_permission :=
       fun request =>
         match Request.user request with Some _ => true | None => false end;
     has_object_permission := fun _ _ => true |}.

(** [APIView.permission_denied]: a request without an identity is not
    authenticated, one with an identity is forbidden. *)
Definition permission_denied (request : Request.t) : exception :=
  match Request.user request with
  | None => NotAuthenticated
  | Some _ => PermissionDenied
  end.

(** [APIView.check_permissions], run before the handler of the verb. *)
Definition check_permissions (permission_classes : list Permission)
  (request : Request.t) : result unit :=
  if forallb (fun p => has_permission p request) permission_classes
  then Ok tt
  else Raise (permission_denied request).

(** [GenericAPIView.get_object]: the lookup, then the object permissions. *)
Definition get_object (permission_classes : list Permission)
  (request : Request.t) (db : DB) : result Ad.t :=
  object <- get_object_or_404 (get_ad db (Request.pk request)) ;;
  if forallb (fun p => has_object_permission p request object)
       permission_classes
  then Ok object
  else Raise (permission_denied request).

Section RestViews.

(** The serializers of [ads/serializers.py] and the owner permission of
    [ads/permissions.py], which the views name, are parameters of the
    views. *)
Variable AdDetailSerializer_data : DB -> Ad.t -> json.
Variable AdDetailSerializer_update : DB -> Ad.t -> AdData.t -> result Ad.t.
Variable AdUpdatePermission : Permission.

Definition AdDetailView_permission_classes : list Permission :=
  [IsAuthenticated].

Definition AdUpdateView_permission_classes : list Permission :=
  [IsAuthenticated; AdUpdatePermission].

Definition AdDeleteView_permission_classes : list Permission :=
  [IsAuthenticated; AdUpdatePermission].

(** [RetrieveAPIView.get] *)
Definition AdDetailView_get (request : Request.t) (db : DB)
  : DB * result HttpResponse :=
  (db,
   _ <- check_permissions AdDetailView_permission_classes request ;;
   instance <- get_object AdDetailView_permission_classes request db ;;
   Ok (JsonResponse (AdDetailSerializer_data db instance) 200)).

(** [UpdateAPIView.put] and [UpdateAPIView.patch] *)
Definition AdUpdateView_update (request : Request.t) (db : DB)
  : DB * result HttpResponse :=
  match
    (_ <- check_permissions AdUpdateView_permission_classes request ;;
     instance <- get_object AdUpdateView_permission_classes request db ;;
     AdDetailSerializer_update db instance (Request.body request))
  with
  | Raise e => (db, Raise e)
  | Ok instance =>
      let db' := Ad_save instance db in
      (db', Ok (JsonResponse (AdDetailSerializer_data db' instance) 200))
  end.

(** [DestroyAPIView.delete] *)
Definition AdDeleteView_delete (request : Request.t) (db : DB)
  : DB * result HttpResponse :=
  match
    (_ <- check_permissions AdDeleteView_permission_classes request ;;
     get_object AdDeleteView_permission_classes request db)
  with
  | Raise e => (db, Raise e)
  | Ok instance => (Ad_delete instance db, Ok (JsonResponse JNull 204))
  end.

End RestViews.

(** ** The category views: [CategoryView], [CategoryDetailView],
    [CategoryCreateView], [CategoryUpdateView] *)

(** [.order_by("name")] under the collation [le] of the database (a
    total order on names); rows of equal name keep their relative order. *)
Fixpoint insert_by_name (le : string -> string -> bool) (c : Category.t)
  (sorted : list Category.t) : list Category.t :=
  match sorted with
  | [] => [c]
  | h :: t =>
      if le (Category.name c) (Category.name h) then c :: sorted
      else h :: insert_by_name le c t
  end.

Definition order_by_name (le : string -> string -> bool)
  (qs : list Category.t) : list Category.t :=
  fold_right (insert_by_name le) [] qs.

(** The order of the list of categories under the collation [le]. *)
Definition by_name (le : string -> string -> bool) (a b : Category.t) : Prop :=
  le (Category.name a) (Category.name b) = true.

(** [CategoryView.get]: every category, ordered by name. *)
Definition CategoryView_get (le : string -> string -> bool) (db : DB)
  : HttpResponse :=
  let object_list := categories db in
  let object_list := order_by_name le object_list in
  let response :=
    map
      (fun category =>
         JObj [("id", JInt (Category.id category));
               ("name", JStr (Category.name category))]%string)
      object_list in
  JsonResponse (JList response) 200.

(** [CategoryDetailView.get] *)
Definition CategoryDetailView_get (request : Request.t) (db : DB)
  : result HttpResponse :=
  match get_object_or_404 (get_category db (Request.pk request)) with
  | Raise Http404 =>
      Ok (JsonResponse (JObj [("error", JStr "Category not found")]%string) 404)
  | Raise e => Raise e
  | Ok category =>
      Ok (JsonResponse
            (JObj [("id", JInt (Category.id category));
                   ("name", JStr (Category.name category))]%string)
            200)
  end.

(** The id given to a new category: one more than the largest in use. *)
Definition next_category_id (l : list Category.t) : Z :=
  1 + fold_right Z.max 0 (map Category.id l).

(** [Category.objects.create(name=...)] *)
Definition Category_objects_create (name : string) (db : DB)
  : DB * Category.t :=
  let category :=
    {| Category.id := next_category_id (categories db);
       Category.name := name |} in
  (with_categories (categories db ++ [category]) db, category).

(** [category.save()] on a row that exists. *)
Definition Category_save (object : Category.t) (db : DB) : DB :=
  with_categories
    (map (fun c => if Category.id c =? Category.id object then object else c)
       (categories db))
    db.

(** [CategoryCreateView.post]; the decoded body is read at its key
    [name]. *)
Definition CategoryCreateView_post (request : Request.t) (db : DB)
  : DB * result HttpResponse :=
  let category_data := Request.body request in
  match getitem (AdData.name category_data) with
  | Raise e => (db, Raise e)
  | Ok name =>
      let (db', category) := Category_objects_create name db in
      (db',
       Ok (JsonResponse
             (JObj [("id", JInt (Category.id category));
                    ("name", JStr (Category.name category))]%string)
             200))
  end.

(** [CategoryUpdateView.patch].  The call of the form view's [post]
    loads the object (or raises [Http404]); its form is not bound for a
    [PATCH] request, so nothing is saved there and its response is
    dropped.  The name is then read from the decoded body and saved. *)
Definition CategoryUpdateView_patch (request : Request.t) (db : DB)
  : DB * result HttpResponse :=
  match get_object_or_404 (get_category db (Request.pk request)) with
  | Raise Http404 =>
      (db,
       Ok (JsonResponse (JObj [("error", JStr "Category not found")]%string) 404))
  | Raise e => (db, Raise e)
  | Ok object =>
      let category_data := Request.body request in
      match getitem (AdData.name category_data) with
      | Raise e => (db, Raise e)
      | Ok name =>
          let object := {| Category.id := Category.id object;
                           Category.name := name |} in
          (Category_save object db,
           Ok (JsonResponse
                 (JObj [("id", JInt (Category.id object));
                        ("name", JStr (Category.name object))]%string)
                 200))
      end
  end.

(** ** The selection views: [SelectionCreateView], [SelectionUpdateView],
    [SelectionDeleteView] *)

(** The [Selection] model as migration [0005_selection] creates it: a
    name, the owner (a user) and the items (ads). *)
Module Selection.
Record t : Type :=
  { id : Z; name : string; owner_id : Z; items : list Z }.
End Selection.

(** A permission class over objects of type [A]. *)
Record PermissionOn (A : Type) : Type :=
  { permits : Request.t -> bool;
    permits_object : Request.t -> A -> bool }.
Arguments permits {A} _ _.
Arguments permits_object {A} _ _ _.

(** [IsAuthenticated] on objects of type [A]. *)
Definition IsAuthenticatedOn (A : Type) : PermissionOn A :=
  {| permits := has_permission IsAuthenticated;
     permits_object := fun _ _ => true |}.

Definition check_permissions_on {A : Type}
  (permission_classes : list (PermissionOn A)) (request : Request.t)
  : result unit :=
  if forallb (fun p => permits p request) permission_classes
  then Ok tt
  else Raise (permission_denied request).

Definition get_selection (selections : list Selection.t) (pk : Z)
  : option Selection.t :=
  find (fun s => Selection.id s =? pk) selections.

(** [GenericAPIView.get_object] on the selections. *)
Definition get_object_on (permission_classes : list (PermissionOn Selection.t))
  (request : Request.t) (selections : list Selection.t)
  : result Selection.t :=
  object <- get_object_or_404 (get_selection selections (Request.pk request)) ;;
  if forallb (fun p => permits_object p request object) permission_classes
  then Ok object
  else Raise (permission_denied request).

Section SelectionViews.

(** The serializer of [ads/serializers.py] and the owner permission of
    [ads/permissions.py], which the views name, are parameters of the
    views. *)
Variable SelectionSerializer_create :
  list Selection.t -> Request.t -> result Selection.t.
Variable SelectionSerializer_update :
  Selection.t -> Request.t -> result Selection.t.
Variable SelectionSerializer_data : Selection.t -> json.
Variable SelectionUpdatePermission : PermissionOn Selection.t.

Definition SelectionCreateView_permission_classes
  : list (PermissionOn Selection.t) :=
  [IsAuthenticatedOn Selection.t].

Definition SelectionUpdateView_permission_classes
  : list (PermissionOn Selection.t) :=
  [IsAuthenticatedOn Selection.t; SelectionUpdatePermission].

Definition SelectionDeleteView_permission_classes
  : list (PermissionOn Selection.t) :=
  [IsAuthenticatedOn Selection.t; SelectionUpdatePermission].

(** [CreateAPIView.post] *)
Definition SelectionCreateView_post (request : Request.t)
  (selections : list Selection.t) : list Selection.t * result HttpResponse :=
  match
    (_ <- check_permissions_on SelectionCreateView_permission_classes request ;;
     SelectionSerializer_create selections request)
  with
  | Raise e => (selections, Raise e)
  | Ok instance =>
      (selections ++ [instance],
       Ok (JsonResponse (SelectionSerializer_data instance) 201))
  end.

(** [UpdateAPIView.put] and [UpdateAPIView.patch] *)
Definition SelectionUpdateView_update (request : Request.t)
  (selections : list Selection.t) : list Selection.t * result HttpResponse :=
  match
    (_ <- check_permissions_on SelectionUpdateView_permission_classes request ;;
     instance <-
       get_object_on SelectionUpdateView_permission_classes request selections ;;
     SelectionSerializer_update instance request)
  with
  | Raise e => (selections, Raise e)
  | Ok instance =>
      (map
         (fun s =>
            if Selection.id s =? Selection.id instance then instance else s)
         selections,
       Ok (JsonResponse (SelectionSerializer_data instance) 200))
  end.

(** [DestroyAPIView.delete] *)
Definition SelectionDeleteView_delete (request : Request.t)
  (selections : list Selection.t) : list Selection.t * result HttpResponse :=
  match
    (_ <- check_permissions_on SelectionDeleteView_permission_classes request ;;
     get_object_on SelectionDeleteView_permission_classes request selections)
  with
  | Raise e => (selections, Raise e)
  | Ok instance =>
      (filter
         (fun s => negb (Selection.id s =? Selection.id instance))
         selections,
       Ok (JsonResponse JNull 204))
  end.

End SelectionViews.

(** ** The filters, in the words of the specification *)

(** [cat]: the category id of the ad is in the given set. *)
Definition cat_matches (GET : QueryDict) (ad : Ad.t) : bool :=
  match getlist "cat" GET with
  | [] => true
  | values =>
      existsb
        (fun v =>
           match int v with
           | Some z => Ad.category_id ad =? z
           | None => false
           end)
        values
  end.

(** [text]: the name of the ad contains the text, whatever the case. *)
Definition text_matches (GET : QueryDict) (ad : Ad.t) : bool :=
  match truthy (get "text" GET) with
  | Some text => icontains (Ad.name ad) text
  | None => true
  end.

(** [location]: the author has a location whose name contains the text. *)
Definition location_matches (db : DB) (GET : QueryDict) (ad : Ad.t) : bool :=
  match truthy (get "location" GET) with
  | Some text =>
      match get_user db (Ad.author_id ad) with
      | Some u =>
          existsb (fun l => icontains (Location.name l) text) (User.locations u)
      | None => false
      end
  | None => true
  end.

(** [price_from]: the price is at least the given value. *)
Definition price_from_matches (GET : QueryDict) (ad : Ad.t) : bool :=
  match truthy (get "price_from" GET) with
  | Some value =>
      match int value with
      | Some p => p <=? Ad.price ad
      | None => false
      end
  | None => true
  end.

(** [price_to]: the price is at most the given value. *)
Definition price_to_matches (GET : QueryDict) (ad : Ad.t) : bool :=
  match truthy (get "price_to" GET) with
  | Some value =>
      match int value with
      | Some p => Ad.price ad <=? p
      | None => false
      end
  | None => true
  end.

Definition satisfies_filters (db : DB) (GET : QueryDict) (ad : Ad.t) : bool :=
  (cat_matches GET ad && text_matches GET ad && location_matches db GET ad
   && price_from_matches GET ad && price_to_matches GET ad)%bool.

(** The request that carries the parameter [key] of [request] and no
    other query parameter. *)
Definition only (key : string) (request : Request.t) : Request.t :=
  {| Request.GET :=
       filter (fun kv => String.eqb key (fst kv)) (Request.GET request);
     Request.body := Request.body request;
     Request.FILES := Request.FILES request;
     Request.user := Request.user request;
     Request.pk := Request.pk request |}.

(** The request without the query parameter [key]. *)
Definition without (key : string) (request : Request.t) : Request.t :=
  {| Request.GET :=
       filter (fun kv => negb (String.eqb key (fst kv))) (Request.GET request);
     Request.body := Request.body request;
     Request.FILES := Request.FILES request;
     Request.user := Request.user request;
     Request.pk := Request.pk request |}.


(** The numeric query parameters of the request are numbers: every [cat]
    value, and [price_from] and [price_to] when they are given. *)
Definition is_number (v : string) : bool :=
  match int v with Some _ => true | None => false end.

Definition numbers_valid (GET : QueryDict) : bool :=
  (forallb is_number (getlist "cat" GET)
   && match truthy (get "price_from" GET) with
      | Some v => is_number v
      | None => true
      end
   && match truthy (get "price_to" GET) with
      | Some v => is_number v
      | None => true
      end)%bool.

(** Every ad refers to a user of the users table (the foreign key of the
    author column holds). *)
Definition authors_exist (db : DB) : bool :=
  forallb
    (fun ad =>
       match get_user db (Ad.author_id ad) with
       | Some _ => true
       | None => false
       end)
    (ads db).

(** The page the pager serves for a page parameter, out of [num_pages]
    pages: page 1 when the parameter is absent or not an integer, the
    last page when the integer is out of range. *)
Definition served_page (num_pages : Z) (number : option string) : Z :=
  match match number with Some s => int s | None => None end with
  | None => 1
  | Some n => if ((1 <=? n) && (n <=? num_pages))%bool then n else num_pages
  end.

(** The rows of page [n] for pages of [per_page] rows. *)
Definition page_rows (per_page n : Z) (rows : list Ad.t) : list Ad.t :=
  Paginator.slice
    ((n - 1) * per_page)
    (Z.min ((n - 1) * per_page + per_page) (Z.of_nat (List.length rows)))
    rows.


(** The fields of the public representation of an ad, in the order the
    views write them. *)
Definition ad_fields : list string :=
  ["id"; "name"; "author_id"; "author"; "price"; "description";
   "is_published"; "category_id"; "image"]%string.

(** The image an upload request leaves on the ad: the stored name of the
    file under the key [image], or nothing. *)
Definition uploaded_image (storage : Storage) (request : Request.t)
  : option string :=
  match get "image" (Request.FILES request) with
  | Some f => Some (save storage (file_name f))
  | None => None
  end.

(** Every ad refers to a category of the categories table. *)
Definition categories_exist (db : DB) : bool :=
  forallb
    (fun ad =>
       match get_category db (Ad.category_id ad) with
       | Some _ => true
       | None => false
       end)
    (ads db).

(** ** A small database and some requests *)

Module Sample.

Definition alice : User.t :=
  {| User.id := 1;
     User.first_name := "Alice";
     User.locations :=
       [ {| Location.id := 1; Location.name := "Moscow" |};
         {| Location.id := 2; Location.name := "Moscow region" |} ] |}.

Definition bob : User.t :=
  {| User.id := 2;
     User.first_name := "Bob";
     User.locations := [ {| Location.id := 3; Location.name := "Kazan" |} ] |}.

Definition transport : Category.t :=
  {| Category.id := 1; Category.name := "Transport" |}.

Definition sport : Category.t :=
  {| Category.id := 2; Category.name := "Sport" |}.

Definition ad (id : Z) (name : string) (author_id price : Z)
  (is_published : bool) (category_id : Z) (image : option string) : Ad.t :=
  {| Ad.id := id; Ad.name := name; Ad.author_id := author_id;
     Ad.price := price; Ad.description := "";
     Ad.is_published := is_published; Ad.category_id := category_id;
     Ad.image := image |}.

Definition bike : Ad.t := ad 1 "Bike" 1 100 true 2 None.
Definition car : Ad.t := ad 2 "Car" 2 9000 true 1 (Some "images/car.png"%string).
Definition skis : Ad.t := ad 3 "Skis" 2 250 false 2 None.
Definition scooter : Ad.t := ad 4 "Scooter" 1 300 true 1 None.
Definition racing_bike : Ad.t := ad 5 "Racing bike" 2 700 false 2 None.

Definition db : DB :=
  {| users := [alice; bob];
     categories := [transport; sport];
     ads := [bike; car; skis; scooter; racing_bike] |}.


Definition settings : Settings := {| TOTAL_ON_PAGE := 2 |}.

Definition storage : Storage :=
  {| save := fun name => ("images/" ++ name)%string;
     url := fun name => ("/media/" ++ name)%string |}.

Definition no_data : AdData.t :=
  {| AdData.name := None; AdData.author_id := None; AdData.price := None;
     AdData.description := None; AdData.is_published := None;
     AdData.category_id := None |}.

(** An anonymous [GET] request with the given query parameters. *)
Definition request (GET : QueryDict) : Request.t :=
  {| Request.GET := GET; Request.body := no_data; Request.FILES := [];
     Request.user := None; Request.pk := 0 |}.

(** [?cat=2&text=bike&location=mosc&price_from=50&price_to=150] *)
Definition search : Request.t :=
  request [("cat", ["2"]); ("text", ["bike"]); ("location", ["mosc"]);
           ("price_from", ["50"]); ("price_to", ["150"])]%string.

(** The five ads of [db], highest price first. *)
Definition by_price : list Ad.t := [car; racing_bike; scooter; skis; bike].

(** [?page=4]: one page beyond the three pages of [db]. *)
Definition page_four : Request.t := request [("page", ["4"])]%string.

(** [?cat=2&price_from=200], sent without an identity. *)
Definition sport_from_200 : Request.t :=
  request [("cat", ["2"]); ("price_from", ["200"])]%string.

(** [POST] of a new ad named Bike, sent without an identity. *)
Definition create_bike : Request.t :=
  {| Request.GET := [];
     Request.body :=
       {| AdData.name := Some "Bike"%string;
          AdData.author_id := Some 1;
          AdData.price := Some 100;
          AdData.description := Some ""%string;
          AdData.is_published := Some true;
          AdData.category_id := Some 2 |};
     Request.FILES := [];
     Request.user := None;
     Request.pk := 0 |}.


(** A request on the object with primary key [pk], without files. *)
Definition on_object (pk : Z) (user : option User.t) : Request.t :=
  {| Request.GET := []; Request.body := no_data; Request.FILES := [];
     Request.user := user; Request.pk := pk |}.

(** An upload of [photo.png] for the ad with primary key [pk]. *)
Definition upload (pk : Z) : Request.t :=
  {| Request.GET := []; Request.body := no_data;
     Request.FILES := [("image"%string, [ {| file_name := "photo.png" |} ])];
     Request.user := None; Request.pk := pk |}.

(** A serializer that writes the id alone, an update that changes
    nothing, and the owner-only permission. *)
Definition serializer_data (db : DB) (ad : Ad.t) : json :=
  JObj [("id"%string, JInt (Ad.id ad))].

Definition serializer_update (db : DB) (ad : Ad.t) (data : AdData.t)
  : result Ad.t := Ok ad.

Definition owner_only : Permission :=
  {| has_permission := fun _ => true;
     has_object_permission :=
       fun request ad =>
         match Request.user request with
         | Some u => User.id u =? Ad.author_id ad
         | None => false
         end |}.

(** [?cat=]: the parameter is given, with the empty string for value. *)
Definition empty_cat : Request.t := request [("cat", [""])]%string.

(** [?price_from=abc]: a price that is not a number. *)
Definition price_from_abc : Request.t :=
  request [("price_from", ["abc"])]%string.

(** [?price_from=200&price_to=300] *)
Definition from_200_to_300 : Request.t :=
  request [("price_from", ["200"]); ("price_to", ["300"])]%string.

(** [?page=0] and [?page=2] *)
Definition page_zero : Request.t := request [("page", ["0"])]%string.
Definition page_two : Request.t := request [("page", ["2"])]%string.

(** A creation payload without the key [price]. *)
Definition create_without_price : Request.t :=
  {| Request.GET := [];
     Request.body :=
       {| AdData.name := Some "Bike"%string;
          AdData.author_id := Some 1;
          AdData.price := None;
          AdData.description := Some ""%string;
          AdData.is_published := Some true;
          AdData.category_id := Some 2 |};
     Request.FILES := [];
     Request.user := None;
     Request.pk := 0 |}.

(** A request on the category with primary key [pk] whose body carries
    the name [name], or no name at all. *)
Definition named (pk : Z) (name : option string) : Request.t :=
  {| Request.GET := [];
     Request.body :=
       {| AdData.name := name; AdData.author_id := None;
          AdData.price := None; AdData.description := None;
          AdData.is_published := None; AdData.category_id := None |};
     Request.FILES := [];
     Request.user := None;
     Request.pk := pk |}.

(** Two selections, of Alice and of Bob, and the owner-only permission
    on selections. *)
Definition favourites : Selection.t :=
  {| Selection.id := 1; Selection.name := "Favourites";
     Selection.owner_id := 1; Selection.items := [1; 4] |}.

Definition winter : Selection.t :=
  {| Selection.id := 2; Selection.name := "Winter";
     Selection.owner_id := 2; Selection.items := [3] |}.

Definition selections : list Selection.t := [favourites; winter].

Definition selection_owner_only : PermissionOn Selection.t :=
  {| permits := fun _ => true;
     permits_object :=
       fun request selection =>
         match Request.user request with
         | Some u => User.id u =? Selection.owner_id selection
         | None => false
         end |}.

Definition selection_create (l : list Selection.t) (request : Request.t)
  : result Selection.t :=
  Ok {| Selection.id := 3; Selection.name := "New";
        Selection.owner_id := 1; Selection.items := [] |}.

Definition selection_update (selection : Selection.t) (request : Request.t)
  : result Selection.t := Ok selection.

Definition selection_data (selection : Selection.t) : json :=
  JObj [("id"%string, JInt (Selection.id selection))].

(** Modelled from the spec: the fields of [users/models.py] and
    [ads/models.py] are missing.  A schema with integer keys and a
    boolean publication flag, read as [AutoField] and [BooleanField]
    read a decoded value; its text and price columns are given for
    strings and integers only and refuse any other value. *)
Definition schema : Schema :=
  {| user_pk := AutoField_lookup;
     category_pk := AutoField_lookup;
     to_row :=
       fun name price description is_published =>
         match name, price, description with
         | JStr n, JInt p, JStr d =>
             b <- BooleanField_to_python is_published ;; Ok (n, p, d, b)
         | _, _, _ => Raise ValidationError
         end |}.




(** [?text=&location=&price_from=&price_to=]: four empty parameters. *)
Definition four_empty : Request.t :=
  request [("text", [""]); ("location", [""]); ("price_from", [""]);
           ("price_to", [""])]%string.

(** [?cat=2&cat=x]: a category that is not a number. *)
Definition cat_x : Request.t := request [("cat", ["2"; "x"])]%string.

End Sample.

(** * Properties *)

(** ** The embedding on the sample database *)

Example int_examples :
  int "42" = Some 42 /\ int " -7 " = Some (-7) /\ int "1_000" = Some 1000 /\
  int "" = None /\ int "12.5" = None /\ int "abc" = None /\ int "1__0" = None.
Proof. repeat split; reflexivity. Qed.

(** White space is the bytes 9 to 13 and 32: the separators 28 to 31 are
    not, and a number followed by one of them is not read. *)
Example int_space_examples :
  int (String (ascii_of_nat 9) "2 ") = Some 2 /\
  int (String "2" (String (ascii_of_nat 28) EmptyString)) = None /\
  int (String (ascii_of_nat 31) "2") = None /\
  is_ascii (String "2" (String (ascii_of_nat 28) EmptyString)) = true /\
  is_ascii (String (ascii_of_nat 217) (String (ascii_of_nat 163) EmptyString))
  = false /\
  int (String (ascii_of_nat 217) (String (ascii_of_nat 163) EmptyString))
  = None.
Proof. repeat split; reflexivity. Qed.

Example icontains_examples :
  icontains "Mountain Bike" "bIKE" = true /\ icontains "Bike" "car" = false /\
  icontains "Bike" "" = true.
Proof. repeat split; reflexivity. Qed.

(** The ad of price 100 is listed for [?price_from=50&price_to=150] and
    not for [?price_from=200]. *)
Example price_range_example :
  AdView_object_list Sample.db
    (Sample.request [("price_from", ["50"]); ("price_to", ["150"])]%string)
  = Ok [Sample.bike] /\
  AdView_object_list Sample.db (Sample.request [("price_from", ["200"])]%string)
  = Ok [Sample.car; Sample.racing_bike; Sample.scooter; Sample.skis].
Proof. split; reflexivity. Qed.

(** Page 1 of five ads in pages of two carries two items. *)
Example first_page_example :
  exists a b,
    AdView_get Sample.settings Sample.storage Sample.db
      (Sample.request [("page", ["1"])]%string)
    = Ok (JsonResponse
            (JObj [("items", JList [a; b]);
                   ("num_pages", JInt 3);
                   ("total", JInt 5)]%string)
            200).
Proof. eexists. eexists. vm_compute. reflexivity. Qed.

(** A creation payload without price raises [KeyError] and adds no ad. *)
Example create_without_price_example :
  AdCreateView_post Sample.storage Sample.create_without_price Sample.db
  = (Sample.db, Raise KeyError).
Proof. reflexivity. Qed.

(** An author with two matching locations brings the ad twice. *)
Example location_join_example :
  AdView_object_list Sample.db (Sample.request [("location", ["MOSCOW"])]%string)
  = Ok [Sample.scooter; Sample.scooter; Sample.bike; Sample.bike].
Proof. reflexivity. Qed.

(** ** Results *)

Lemma bind_Ok {A B : Type} (r : result A) (k : A -> result B) (b : B) :
  bind r k = Ok b -> exists a, r = Ok a /\ k a = Ok b.
Proof.
  destruct r as [a | e]; simpl; intros H.
  - exists a. split; [reflexivity | exact H].
  - discriminate H.
Qed.

Lemma mapM_length {A B : Type} (f : A -> result B) (l : list A) (bs : list B) :
  mapM f l = Ok bs -> List.length bs = List.length l.
Proof.
  revert bs. induction l as [| a t IH]; simpl; intros bs H.
  - injection H as <-. reflexivity.
  - apply bind_Ok in H. destruct H as (b & _ & H).
    apply bind_Ok in H. destruct H as (bs' & Ht & H).
    injection H as <-. simpl. f_equal. apply IH. exact Ht.
Qed.

Lemma mapM_Forall2 {A B : Type} (f : A -> result B) (l : list A) (bs : list B) :
  mapM f l = Ok bs -> Forall2 (fun a b => f a = Ok b) l bs.
Proof.
  revert bs. induction l as [| a t IH]; simpl; intros bs H.
  - injection H as <-. constructor.
  - apply bind_Ok in H. destruct H as (b & Hb & H).
    apply bind_Ok in H. destruct H as (bs' & Ht & H).
    injection H as <-. constructor; [exact Hb | apply IH; exact Ht].
Qed.

Lemma mapM_total {A B : Type} (f : A -> result B) (l : list A) :
  (forall a, In a l -> exists b, f a = Ok b) -> exists bs, mapM f l = Ok bs.
Proof.
  induction l as [| a t IH]; simpl; intros H.
  - exists []. reflexivity.
  - destruct (H a (or_introl eq_refl)) as (b & Hb).
    destruct IH as (bs & Hbs); [intros x Hx; apply H; right; exact Hx |].
    exists (b :: bs). rewrite Hb. simpl. rewrite Hbs. reflexivity.
Qed.

(** ** Ordering by price *)

Lemma insert_by_price_In (ad x : Ad.t) (l : list Ad.t) :
  In x (insert_by_price ad l) <-> x = ad \/ In x l.
Proof.
  induction l as [| h t IH]; simpl.
  - intuition congruence.
  - destruct (Ad.price h <=? Ad.price ad); simpl; rewrite ?IH; intuition congruence.
Qed.

Lemma insert_by_price_length (ad : Ad.t) (l : list Ad.t) :
  List.length (insert_by_price ad l) = S (List.length l).
Proof.
  induction l as [| h t IH]; simpl; [reflexivity |].
  destruct (Ad.price h <=? Ad.price ad); simpl; [reflexivity | now rewrite IH].
Qed.

Lemma insert_by_price_sorted (ad : Ad.t) (l : list Ad.t) :
  StronglySorted price_desc l -> StronglySorted price_desc (insert_by_price ad l).
Proof.
  induction 1 as [| h t Ht IH Hh]; simpl.
  - constructor; constructor.
  - destruct (Z.leb_spec (Ad.price h) (Ad.price ad)) as [Hlt | Hge].
    + constructor; [constructor; assumption |].
      constructor; [unfold price_desc; lia |].
      rewrite Forall_forall in Hh |- *. intros x Hx.
      specialize (Hh x Hx). unfold price_desc in *. lia.
    + constructor; [exact IH |].
      rewrite Forall_forall in Hh |- *. intros x Hx.
      apply insert_by_price_In in Hx. destruct Hx as [-> | Hx].
      * unfold price_desc. lia.
      * apply Hh. exact Hx.
Qed.

Lemma order_by_price_desc_In (x : Ad.t) (l : list Ad.t) :
  In x (order_by_price_desc l) <-> In x l.
Proof.
  unfold order_by_price_desc. induction l as [| h t IH]; simpl.
  - reflexivity.
  - rewrite insert_by_price_In, IH. intuition congruence.
Qed.

Lemma order_by_price_desc_length (l : list Ad.t) :
  List.length (order_by_price_desc l) = List.length l.
Proof.
  unfold order_by_price_desc. induction l as [| h t IH]; simpl.
  - reflexivity.
  - rewrite insert_by_price_length, IH. reflexivity.
Qed.

Lemma order_by_price_desc_sorted (l : list Ad.t) :
  StronglySorted price_desc (order_by_price_desc l).
Proof.
  unfold order_by_price_desc. induction l as [| h t IH]; simpl.
  - constructor.
  - apply insert_by_price_sorted. exact IH.
Qed.

Lemma firstn_In {A : Type} (n : nat) (l : list A) (x : A) :
  In x (firstn n l) -> In x l.
Proof.
  revert l. induction n as [| n IH]; intros [| h t]; simpl; try tauto.
  intros [-> | H]; [left; reflexivity | right; apply IH; exact H].
Qed.

Lemma skipn_In {A : Type} (n : nat) (l : list A) (x : A) :
  In x (skipn n l) -> In x l.
Proof.
  revert l. induction n as [| n IH]; intros [| h t]; simpl; try tauto.
  intros H. right. apply IH. exact H.
Qed.

Lemma StronglySorted_skipn {A : Type} (R : A -> A -> Prop) (n : nat) (l : list A) :
  StronglySorted R l -> StronglySorted R (skipn n l).
Proof.
  revert l. induction n as [| n IH]; intros l H; simpl; [exact H |].
  destruct l as [| h t]; [constructor |].
  apply IH. inversion H; assumption.
Qed.

Lemma StronglySorted_firstn {A : Type} (R : A -> A -> Prop) (n : nat) (l : list A) :
  StronglySorted R l -> StronglySorted R (firstn n l).
Proof.
  revert l. induction n as [| n IH]; intros l H; simpl; [constructor |].
  destruct l as [| h t]; [constructor |].
  inversion H as [| ? ? Ht Hh]; subst. constructor; [apply IH; exact Ht |].
  rewrite Forall_forall in Hh |- *. intros x Hx. apply Hh.
  eapply firstn_In; eauto.
Qed.

Lemma slice_sorted (R : Ad.t -> Ad.t -> Prop) (bottom top : Z) (l : list Ad.t) :
  StronglySorted R l -> StronglySorted R (Paginator.slice bottom top l).
Proof.
  intros H. unfold Paginator.slice.
  apply StronglySorted_firstn, StronglySorted_skipn, H.
Qed.

(** ** Query dictionaries *)

Lemma lookup_only_same {A : Type} (key : string) (d : MultiValueDict A) :
  lookup key (filter (fun kv => String.eqb key (fst kv)) d) = lookup key d.
Proof.
  induction d as [| [k vs] t IH]; simpl; [reflexivity |].
  destruct (String.eqb key k) eqn:E; simpl.
  - rewrite E. reflexivity.
  - exact IH.
Qed.

Lemma lookup_only_other {A : Type} (key key' : string) (d : MultiValueDict A) :
  String.eqb key' key = false ->
  lookup key' (filter (fun kv => String.eqb key (fst kv)) d) = None.
Proof.
  intros Hne. induction d as [| [k vs] t IH]; simpl; [reflexivity |].
  destruct (String.eqb key k) eqn:E; simpl; [| exact IH].
  apply String.eqb_eq in E. subst k. rewrite Hne. exact IH.
Qed.

(** ** The filters *)

Lemma to_python_Ok (v : string) (z : Z) : to_python v = Ok z <-> int v = Some z.
Proof.
  unfold to_python. destruct (int v); split; intros H; inversion H; reflexivity.
Qed.

Lemma mapM_to_python_mem (values : list string) (ids : list Z) (c : Z) :
  mapM to_python values = Ok ids ->
  mem c ids =
  existsb (fun v => match int v with Some z => c =? z | None => false end) values.
Proof.
  revert ids. induction values as [| v t IH]; simpl; intros ids H.
  - injection H as <-. reflexivity.
  - apply bind_Ok in H. destruct H as (z & Hz & H).
    apply bind_Ok in H. destruct H as (zs & Hzs & H).
    injection H as <-. apply to_python_Ok in Hz. rewrite Hz.
    unfold mem in *. simpl. rewrite (IH zs Hzs). reflexivity.
Qed.

Lemma filter_author__locations__name__icontains_In
  (db : DB) (text : string) (qs : list Ad.t) (ad : Ad.t) :
  In ad (filter_author__locations__name__icontains db text qs) <->
  In ad qs /\ matching_locations db text ad <> [].
Proof.
  unfold filter_author__locations__name__icontains.
  rewrite in_flat_map. split.
  - intros (x & Hx & Hin). apply in_map_iff in Hin.
    destruct Hin as (l & <- & Hl). split; [exact Hx |].
    intros E. rewrite E in Hl. exact Hl.
  - intros (Hin & Hne). exists ad. split; [exact Hin |].
    destruct (matching_locations db text ad) as [| l ls]; [congruence |].
    simpl. left. reflexivity.
Qed.

Lemma matching_locations_nonempty (db : DB) (text : string) (ad : Ad.t) :
  matching_locations db text ad <> [] <->
  match get_user db (Ad.author_id ad) with
  | Some u =>
      existsb (fun l => icontains (Location.name l) text) (User.locations u)
  | None => false
  end = true.
Proof.
  unfold matching_locations. destruct (get_user db (Ad.author_id ad)) as [u |].
  - induction (User.locations u) as [| l ls IH]; simpl.
    + split; [congruence | discriminate].
    + destruct (icontains (Location.name l) text); simpl.
      * split; [reflexivity | discriminate].
      * exact IH.
  - split; [congruence | discriminate].
Qed.

(** The rows the list view keeps are the rows of the table that pass
    every filter of the request. *)
Lemma AdView_object_list_In (db : DB) (request : Request.t) (rows : list Ad.t) :
  AdView_object_list db request = Ok rows ->
  forall ad,
    In ad rows <->
    In ad (ads db) /\ satisfies_filters db (Request.GET request) ad = true.
Proof.
  unfold AdView_object_list, satisfies_filters, cat_matches, text_matches,
    location_matches, price_from_matches, price_to_matches.
  intros H ad.
  apply bind_Ok in H. destruct H as (l1 & H1 & H).
  apply bind_Ok in H. destruct H as (l4 & H4 & H).
  apply bind_Ok in H. destruct H as (l5 & H5 & H).
  injection H as <-. rewrite order_by_price_desc_In.
  assert (E5 : In ad l5 <->
    In ad l4 /\
    match truthy (get "price_to" (Request.GET request)) with
    | Some value =>
        match int value with Some p => Ad.price ad <=? p | None => false end
    | None => true
    end = true).
  { destruct (truthy (get "price_to" (Request.GET request))) as [v |].
    - unfold filter_price__lte in H5. apply bind_Ok in H5.
      destruct H5 as (p & Hp & H5). injection H5 as <-.
      apply to_python_Ok in Hp. rewrite Hp, filter_In. reflexivity.
    - injection H5 as <-. tauto. }
  assert (E4 : In ad l4 <->
    In ad
      match truthy (get "location" (Request.GET request)) with
      | Some text =>
          filter_author__locations__name__icontains db text
            match truthy (get "text" (Request.GET request)) with
            | Some text0 => filter_name__icontains text0 l1
            | None => l1
            end
      | None =>
          match truthy (get "text" (Request.GET request)) with
          | Some text0 => filter_name__icontains text0 l1
          | None => l1
          end
      end /\
    match truthy (get "price_from" (Request.GET request)) with
    | Some value =>
        match int value with Some p => p <=? Ad.price ad | None => false end
    | None => true
    end = true).
  { destruct (truthy (get "price_from" (Request.GET request))) as [v |].
    - unfold filter_price__gte in H4. apply bind_Ok in H4.
      destruct H4 as (p & Hp & H4). injection H4 as <-.
      apply to_python_Ok in Hp. rewrite Hp, filter_In. reflexivity.
    - injection H4 as <-. tauto. }
  assert (E1 : In ad l1 <->
    In ad (ads db) /\
    match getlist "cat" (Request.GET request) with
    | [] => true
    | _ :: _ =>
        existsb
          (fun v =>
             match int v with
             | Some z => Ad.category_id ad =? z
             | None => false
             end)
          (getlist "cat" (Request.GET request))
    end = true).
  { destruct (getlist "cat" (Request.GET request)) as [| v vs] eqn:Ec.
    - injection H1 as <-. tauto.
    - unfold filter_category_id__in in H1. apply bind_Ok in H1.
      destruct H1 as (ids & Hids & H1). injection H1 as <-.
      rewrite filter_In, (mapM_to_python_mem _ _ _ Hids). reflexivity. }
  rewrite E5, E4. rewrite !andb_true_iff.
  destruct (getlist "cat" (Request.GET request)) as [| v vs] eqn:Ec;
  destruct (truthy (get "text" (Request.GET request))) as [t |];
  destruct (truthy (get "location" (Request.GET request))) as [loc |];
  rewrite ?filter_author__locations__name__icontains_In,
    ?matching_locations_nonempty;
  unfold filter_name__icontains; rewrite ?filter_In; rewrite E1; tauto.
Qed.

Lemma mapM_to_python_total (values : list string) :
  forallb is_number values = true <-> exists ids, mapM to_python values = Ok ids.
Proof.
  induction values as [| v t IH]; simpl.
  - split; [exists []; reflexivity | reflexivity].
  - unfold is_number at 1, to_python at 1. destruct (int v) as [z |]; simpl.
    + rewrite IH. split.
      * intros (ids & ->). simpl. eauto.
      * intros (ids & H). destruct (mapM to_python t); [eauto | discriminate].
    + split; [discriminate | intros (ids & H); discriminate].
Qed.

(** The filters raise nothing exactly when the numeric parameters are
    numbers. *)
Lemma AdView_object_list_total (db : DB) (request : Request.t) :
  numbers_valid (Request.GET request) = true <->
  exists rows, AdView_object_list db request = Ok rows.
Proof.
  unfold numbers_valid, AdView_object_list.
  rewrite !andb_true_iff, mapM_to_python_total.
  unfold filter_category_id__in, filter_price__gte, filter_price__lte, is_number.
  split.
  - intros [[(ids & Hids) Hf] Ht].
    destruct (getlist "cat" (Request.GET request)) as [| v vs];
      [| rewrite Hids]; simpl;
      destruct (truthy (get "price_from" (Request.GET request))) as [f |];
      destruct (truthy (get "price_to" (Request.GET request))) as [t |];
      unfold to_python; simpl;
      try (destruct (int f); [| discriminate]);
      try (destruct (int t); [| discriminate]); simpl; eauto.
  - intros (rows & H).
    apply bind_Ok in H. destruct H as (l1 & H1 & H).
    apply bind_Ok in H. destruct H as (l4 & H4 & H).
    apply bind_Ok in H. destruct H as (l5 & H5 & _).
    repeat split.
    + destruct (getlist "cat" (Request.GET request)) as [| v vs];
        [exists []; reflexivity |].
      apply bind_Ok in H1. destruct H1 as (ids & Hids & _). eauto.
    + destruct (truthy (get "price_from" (Request.GET request))) as [f |];
        [| reflexivity].
      apply bind_Ok in H4. destruct H4 as (z & Hz & _).
      apply to_python_Ok in Hz. rewrite Hz. reflexivity.
    + destruct (truthy (get "price_to" (Request.GET request))) as [t |];
        [| reflexivity].
      apply bind_Ok in H5. destruct H5 as (z & Hz & _).
      apply to_python_Ok in Hz. rewrite Hz. reflexivity.
Qed.

Lemma get_only_same (key : string) (request : Request.t) :
  get key (Request.GET (only key request)) = get key (Request.GET request).
Proof. unfold get, only. cbn [Request.GET]. now rewrite lookup_only_same. Qed.

Lemma getlist_only_same (key : string) (request : Request.t) :
  getlist key (Request.GET (only key request))
  = getlist key (Request.GET request).
Proof. unfold getlist, only. cbn [Request.GET]. now rewrite lookup_only_same. Qed.

Lemma get_only_other (key key' : string) (request : Request.t) :
  String.eqb key' key = false ->
  get key' (Request.GET (only key request)) = None.
Proof.
  intros H. unfold get, only. cbn [Request.GET].
  now rewrite lookup_only_other.
Qed.

Lemma getlist_only_other (key key' : string) (request : Request.t) :
  String.eqb key' key = false ->
  getlist key' (Request.GET (only key request)) = [].
Proof.
  intros H. unfold getlist, only. cbn [Request.GET].
  now rewrite lookup_only_other.
Qed.

Ltac only_lookup :=
  rewrite ?get_only_same, ?getlist_only_same;
  rewrite ?get_only_other, ?getlist_only_other by reflexivity.

Lemma numbers_valid_only (key : string) (request : Request.t) :
  In key ["cat"; "text"; "location"; "price_from"; "price_to"]%string ->
  numbers_valid (Request.GET request) = true ->
  numbers_valid (Request.GET (only key request)) = true.
Proof.
  unfold numbers_valid. rewrite !andb_true_iff. intros Hkey [[Hc Hf] Ht].
  simpl in Hkey.
  destruct Hkey as [<- | [<- | [<- | [<- | [<- | []]]]]];
    only_lookup; repeat split; assumption || reflexivity.
Qed.

Lemma satisfies_filters_only (db : DB) (request : Request.t) (ad : Ad.t) :
  let GET := Request.GET request in
  satisfies_filters db (Request.GET (only "cat" request)) ad = cat_matches GET ad /\
  satisfies_filters db (Request.GET (only "text" request)) ad = text_matches GET ad /\
  satisfies_filters db (Request.GET (only "location" request)) ad
  = location_matches db GET ad /\
  satisfies_filters db (Request.GET (only "price_from" request)) ad
  = price_from_matches GET ad /\
  satisfies_filters db (Request.GET (only "price_to" request)) ad
  = price_to_matches GET ad.
Proof.
  unfold satisfies_filters, cat_matches, text_matches, location_matches,
    price_from_matches, price_to_matches.
  repeat split; only_lookup; cbn [truthy andb];
    rewrite ?andb_true_r; reflexivity.
Qed.

(** ** Claim C1: the filters, their conjunction and the empty category *)

(** X25.  The filters compose by conjunction.  Whenever the list view
    builds its result for a request, each of the five filter parameters
    taken alone builds a result too, and an ad is in the result of the
    request exactly when it is in all five of them; a parameter that is
    absent,
    or empty for [text], [location], [price_from] and [price_to], or
    without any value for [cat], leaves the whole table as its own
    result. *)
Theorem list_ads_filters_conjunctive
  (db : DB) (request : Request.t) (rows : list Ad.t) :
  AdView_object_list db request = Ok rows ->
  exists by_cat by_text by_location by_price_from by_price_to,
    AdView_object_list db (only "cat" request) = Ok by_cat /\
    AdView_object_list db (only "text" request) = Ok by_text /\
    AdView_object_list db (only "location" request) = Ok by_location /\
    AdView_object_list db (only "price_from" request) = Ok by_price_from /\
    AdView_object_list db (only "price_to" request) = Ok by_price_to /\
    (forall ad,
        In ad rows <->
        In ad by_cat /\ In ad by_text /\ In ad by_location /\
        In ad by_price_from /\ In ad by_price_to) /\
    (getlist "cat" (Request.GET request) = [] ->
     forall ad, In ad by_cat <-> In ad (ads db)) /\
    (truthy (get "text" (Request.GET request)) = None ->
     forall ad, In ad by_text <-> In ad (ads db)) /\
    (truthy (get "location" (Request.GET request)) = None ->
     forall ad, In ad by_location <-> In ad (ads db)) /\
    (truthy (get "price_from" (Request.GET request)) = None ->
     forall ad, In ad by_price_from <-> In ad (ads db)) /\
    (truthy (get "price_to" (Request.GET request)) = None ->
     forall ad, In ad by_price_to <-> In ad (ads db)).
Proof.
  intros H.
  assert (Hv : numbers_valid (Request.GET request) = true)
    by (apply (AdView_object_list_total db); eauto).
  assert (Hone : forall key,
    In key ["cat"; "text"; "location"; "price_from"; "price_to"]%string ->
    exists r, AdView_object_list db (only key request) = Ok r).
  { intros key Hkey. apply AdView_object_list_total.
    apply numbers_valid_only; assumption. }
  destruct (Hone "cat"%string) as (r1 & H1); [simpl; tauto |].
  destruct (Hone "text"%string) as (r2 & H2); [simpl; tauto |].
  destruct (Hone "location"%string) as (r3 & H3); [simpl; tauto |].
  destruct (Hone "price_from"%string) as (r4 & H4); [simpl; tauto |].
  destruct (Hone "price_to"%string) as (r5 & H5); [simpl; tauto |].
  exists r1, r2, r3, r4, r5.
  pose proof (AdView_object_list_In _ _ _ H) as E.
  pose proof (AdView_object_list_In _ _ _ H1) as E1.
  pose proof (AdView_object_list_In _ _ _ H2) as E2.
  pose proof (AdView_object_list_In _ _ _ H3) as E3.
  pose proof (AdView_object_list_In _ _ _ H4) as E4.
  pose proof (AdView_object_list_In _ _ _ H5) as E5.
  assert (S : forall ad,
    (In ad r1 <-> In ad (ads db) /\ cat_matches (Request.GET request) ad = true) /\
    (In ad r2 <-> In ad (ads db) /\ text_matches (Request.GET request) ad = true) /\
    (In ad r3 <->
     In ad (ads db) /\ location_matches db (Request.GET request) ad = true) /\
    (In ad r4 <->
     In ad (ads db) /\ price_from_matches (Request.GET request) ad = true) /\
    (In ad r5 <->
     In ad (ads db) /\ price_to_matches (Request.GET request) ad = true)).
  { intros ad.
    destruct (satisfies_filters_only db request ad) as (S1 & S2 & S3 & S4 & S5).
    rewrite <- S1, <- S2, <- S3, <- S4, <- S5.
    split; [apply E1 |]. split; [apply E2 |]. split; [apply E3 |].
    split; [apply E4 | apply E5]. }
  split; [exact H1 |]. split; [exact H2 |]. split; [exact H3 |].
  split; [exact H4 |]. split; [exact H5 |].
  split.
  { intros ad. destruct (S ad) as (S1 & S2 & S3 & S4 & S5).
    rewrite (E ad), S1, S2, S3, S4, S5.
    unfold satisfies_filters. rewrite !andb_true_iff. tauto. }
  split.
  { intros Hn ad. destruct (S ad) as (-> & _).
    unfold cat_matches. rewrite Hn. tauto. }
  split.
  { intros Hn ad. destruct (S ad) as (_ & -> & _).
    unfold text_matches. rewrite Hn. tauto. }
  split.
  { intros Hn ad. destruct (S ad) as (_ & _ & -> & _).
    unfold location_matches. rewrite Hn. tauto. }
  split.
  { intros Hn ad. destruct (S ad) as (_ & _ & _ & -> & _).
    unfold price_from_matches. rewrite Hn. tauto. }
  intros Hn ad. destruct (S ad) as (_ & _ & _ & _ & ->).
  unfold price_to_matches. rewrite Hn. tauto.
Qed.

Lemma list_ads_filters_conjunctive_witness :
  AdView_object_list Sample.db Sample.search = Ok [Sample.bike; Sample.bike] /\
  exists by_cat by_text by_location by_price_from by_price_to,
    forall ad,
      In ad [Sample.bike; Sample.bike] <->
      In ad by_cat /\ In ad by_text /\ In ad by_location /\
      In ad by_price_from /\ In ad by_price_to.
Proof.
  split; [reflexivity |].
  destruct (list_ads_filters_conjunctive Sample.db Sample.search
              [Sample.bike; Sample.bike] eq_refl)
    as (a & b & c & d & e & _ & _ & _ & _ & _ & H & _).
  exists a, b, c, d, e. exact H.
Defined.

(** An empty [cat] is not skipped: the list of values is not empty, the
    filter is applied, and the empty value is not a number. *)
Lemma list_ads_empty_cat_counterexample :
  ~ (forall (db : DB) (request : Request.t),
        Forall (fun v => v = EmptyString) (getlist "cat" (Request.GET request)) ->
        AdView_object_list db request
        = AdView_object_list db (without "cat" request)).
Proof.
  intros H.
  specialize (H Sample.db Sample.empty_cat).
  vm_compute in H. discriminate H.
  repeat constructor.
Qed.

(** C1.  At [?cat=] the view does not skip the empty value as it skips
    an empty [text], [location], [price_from] or [price_to]: the list of
    values is not empty, the filter is applied to the empty string, and
    the request is answered with [ValueError] (500).  The same request
    without the parameter lists the five ads, and so does the request
    whose four other parameters are empty. *)
Lemma list_ads_empty_cat_raises :
  AdView_get Sample.settings Sample.storage Sample.db Sample.empty_cat
  = Raise ValueError /\
  response_status
    (AdView_get Sample.settings Sample.storage Sample.db Sample.empty_cat)
  = 500 /\
  AdView_object_list Sample.db (without "cat" Sample.empty_cat)
  = Ok Sample.by_price /\
  AdView_object_list Sample.db Sample.four_empty = Ok Sample.by_price.
Proof. repeat split; reflexivity. Qed.

(** ** The pager *)

Lemma page_Ok (p : Paginator.t) (n : Z) (pg : Paginator.Page) :
  Paginator.page p n = Ok pg ->
  exists bottom top,
    Paginator.number pg = n /\
    Paginator.items pg = Paginator.slice bottom top (Paginator.object_list p).
Proof.
  unfold Paginator.page. intros H.
  apply bind_Ok in H. destruct H as (n' & Hv & H).
  assert (n' = n) as ->.
  { unfold Paginator.validate_number in Hv.
    destruct (n <? 1); [discriminate |].
    apply bind_Ok in Hv. destruct Hv as (np & _ & Hv).
    destruct ((n >? np) && negb (n =? 1))%bool; [discriminate |].
    injection Hv as <-. reflexivity. }
  match type of H with
  | (if ?c then _ else _) = _ => destruct c; [discriminate |]
  end.
  injection H as <-. simpl. eauto.
Qed.

Lemma get_page_Ok (p : Paginator.t) (number : option string)
  (pg : Paginator.Page) :
  Paginator.get_page p number = Ok pg -> exists n, Paginator.page p n = Ok pg.
Proof.
  unfold Paginator.get_page. intros H.
  destruct (match number with Some s => int s | None => None end) as [n |].
  - destruct (Paginator.validate_number p n) as [n' | e].
    + eauto.
    + destruct e; try discriminate.
      apply bind_Ok in H. destruct H as (np & _ & H). eauto.
  - eauto.
Qed.

Lemma ceil_div_bounds (a b : Z) :
  0 < b ->
  b * (Paginator.ceil_div a b - 1) < a <= b * Paginator.ceil_div a b.
Proof.
  intros Hb. unfold Paginator.ceil_div.
  pose proof (Z.div_mod (- a) b ltac:(lia)) as E.
  pose proof (Z.mod_pos_bound (- a) b Hb) as B.
  nia.
Qed.

Lemma num_pages_Ok (p : Paginator.t) :
  0 < Paginator.per_page p ->
  Paginator.num_pages p =
  Ok (Paginator.ceil_div (Z.max 1 (Paginator.count p)) (Paginator.per_page p))
  /\ 1 <= Paginator.ceil_div (Z.max 1 (Paginator.count p)) (Paginator.per_page p).
Proof.
  intros Hp. unfold Paginator.num_pages.
  destruct (Z.eqb_spec (Paginator.per_page p) 0) as [E | _]; [lia |].
  split; [reflexivity |].
  pose proof (ceil_div_bounds (Z.max 1 (Paginator.count p)) _ Hp). nia.
Qed.

Lemma page_in_range (p : Paginator.t) (n : Z) :
  0 < Paginator.per_page p ->
  1 <= n <=
  Paginator.ceil_div (Z.max 1 (Paginator.count p)) (Paginator.per_page p) ->
  Paginator.page p n =
  Ok {| Paginator.items :=
          page_rows (Paginator.per_page p) n (Paginator.object_list p);
        Paginator.number := n |}.
Proof.
  intros Hp Hn. unfold Paginator.page, Paginator.validate_number.
  destruct (num_pages_Ok p Hp) as (-> & _). cbn [bind].
  destruct (Z.ltb_spec n 1); [lia |].
  destruct (Z.gtb_spec n
    (Paginator.ceil_div (Z.max 1 (Paginator.count p)) (Paginator.per_page p)));
    [lia |].
  cbn [andb bind].
  assert (Hc : 0 <= Paginator.count p) by (unfold Paginator.count; lia).
  destruct (Z.ltb_spec ((n - 1) * Paginator.per_page p) 0); [nia |].
  destruct (Z.geb_spec
    ((n - 1) * Paginator.per_page p + Paginator.per_page p)
    (Paginator.count p)) as [Hge | Hlt];
    cbn [orb].
  - destruct (Z.ltb_spec (Paginator.count p) 0); [lia |].
    unfold page_rows. do 3 f_equal. unfold Paginator.count in *. lia.
  - destruct (Z.ltb_spec
      ((n - 1) * Paginator.per_page p + Paginator.per_page p) 0); [nia |].
    unfold page_rows. do 3 f_equal. unfold Paginator.count in *. lia.
Qed.

(** With a positive page size the pager always serves a page. *)
Lemma get_page_served (p : Paginator.t) (number : option string) :
  0 < Paginator.per_page p ->
  let num_pages :=
    Paginator.ceil_div (Z.max 1 (Paginator.count p)) (Paginator.per_page p) in
  let n := served_page num_pages number in
  1 <= n <= num_pages /\
  Paginator.get_page p number =
  Ok {| Paginator.items :=
          page_rows (Paginator.per_page p) n (Paginator.object_list p);
        Paginator.number := n |}.
Proof.
  intros Hp np n. subst np n.
  destruct (num_pages_Ok p Hp) as (Enp & Hnp).
  unfold Paginator.get_page, served_page.
  destruct (match number with Some s => int s | None => None end) as [n |].
  - unfold Paginator.validate_number. rewrite Enp. cbn [bind].
    destruct (Z.ltb_spec n 1) as [Hlt | Hge].
    + destruct (Z.leb_spec 1 n); [lia |]. cbn [andb].
      split; [lia |]. apply page_in_range; [exact Hp | lia].
    + destruct (Z.leb_spec 1 n); [| lia]. cbn [andb].
      destruct (Z.gtb_spec n
        (Paginator.ceil_div (Z.max 1 (Paginator.count p))
           (Paginator.per_page p))) as [Hgt | Hle].
      * destruct (Z.leb_spec n
          (Paginator.ceil_div (Z.max 1 (Paginator.count p))
             (Paginator.per_page p))); [lia |].
        destruct (Z.eqb_spec n 1); [lia |]. cbn [andb negb].
        split; [lia |]. apply page_in_range; [exact Hp | lia].
      * destruct (Z.leb_spec n
          (Paginator.ceil_div (Z.max 1 (Paginator.count p))
             (Paginator.per_page p))); [| lia].
        cbn [andb]. split; [lia |]. apply page_in_range; [exact Hp | lia].
  - split; [lia |]. apply page_in_range; [exact Hp | lia].
Qed.

Lemma page_rows_In (per_page n : Z) (rows : list Ad.t) (ad : Ad.t) :
  In ad (page_rows per_page n rows) -> In ad rows.
Proof.
  unfold page_rows, Paginator.slice. intros H.
  apply firstn_In in H. apply skipn_In in H. exact H.
Qed.

Lemma page_rows_length (per_page n : Z) (rows : list Ad.t) :
  0 < per_page -> 1 <= n ->
  Z.of_nat (List.length (page_rows per_page n rows)) =
  Z.max 0
    (Z.min (n * per_page) (Z.of_nat (List.length rows)) - (n - 1) * per_page).
Proof.
  intros Hp Hn. unfold page_rows, Paginator.slice.
  rewrite length_firstn, length_skipn. nia.
Qed.

(** The last page of a result that is not empty is not empty. *)
Lemma last_page_not_empty (per_page : Z) (rows : list Ad.t) :
  0 < per_page -> rows <> [] ->
  page_rows per_page
    (Paginator.ceil_div (Z.max 1 (Z.of_nat (List.length rows))) per_page) rows
  <> [].
Proof.
  intros Hp Hne E. apply (f_equal (@List.length Ad.t)) in E.
  apply (f_equal Z.of_nat) in E. simpl in E.
  pose proof (ceil_div_bounds (Z.max 1 (Z.of_nat (List.length rows))) _ Hp) as B.
  rewrite page_rows_length in E; [| exact Hp | nia].
  destruct rows as [| h t]; [congruence |]. simpl List.length in *. nia.
Qed.


(** ** The list response *)

Lemma AdView_get_Ok (settings : Settings) (storage : Storage) (db : DB)
  (request : Request.t) (resp : HttpResponse) :
  AdView_get settings storage db request = Ok resp ->
  exists rows page_obj items num_pages,
    AdView_object_list db request = Ok rows /\
    Paginator.get_page
      {| Paginator.object_list := rows;
         Paginator.per_page := TOTAL_ON_PAGE settings |}
      (get "page" (Request.GET request)) = Ok page_obj /\
    mapM (AdView_item storage db) (Paginator.items page_obj) = Ok items /\
    Paginator.num_pages
      {| Paginator.object_list := rows;
         Paginator.per_page := TOTAL_ON_PAGE settings |} = Ok num_pages /\
    resp =
    JsonResponse
      (JObj [("items", JList items);
             ("num_pages", JInt num_pages);
             ("total", JInt (Z.of_nat (List.length rows)))]%string)
      200.
Proof.
  unfold AdView_get. intros H.
  apply bind_Ok in H. destruct H as (rows & Hrows & H).
  apply bind_Ok in H. destruct H as (pg & Hpg & H).
  apply bind_Ok in H. destruct H as (items & Hitems & H).
  apply bind_Ok in H. destruct H as (np & Hnp & H).
  injection H as <-. exists rows, pg, items, np. repeat split; assumption.
Qed.

Lemma AdView_item_price (storage : Storage) (db : DB) (ad : Ad.t) (j : json) :
  AdView_item storage db ad = Ok j ->
  field "price" j = Some (JInt (Ad.price ad)).
Proof.
  unfold AdView_item. intros H. apply bind_Ok in H.
  destruct H as (u & _ & H). injection H as <-. reflexivity.
Qed.

Lemma StronglySorted_map {A B : Type} (R : B -> B -> Prop) (f : A -> B)
  (l : list A) :
  StronglySorted (fun a b => R (f a) (f b)) l -> StronglySorted R (map f l).
Proof.
  induction 1 as [| h t Ht IH Hh]; simpl; constructor; [exact IH |].
  rewrite Forall_forall in Hh |- *. intros y Hy. apply in_map_iff in Hy.
  destruct Hy as (x & <- & Hx). apply Hh. exact Hx.
Qed.

(** ** Claim C2: the ordering of the items *)

(** C2.  Whatever the query parameters of the request, the prices of the
    items of a list response, read in order, never increase. *)
Theorem list_ads_ordered_by_price_desc
  (settings : Settings) (storage : Storage) (db : DB) (request : Request.t)
  (resp : HttpResponse) :
  AdView_get settings storage db request = Ok resp ->
  exists items prices,
    field "items" (content resp) = Some (JList items) /\
    map (field "price") items = map (fun p => Some (JInt p)) prices /\
    StronglySorted Z.ge prices.
Proof.
  intros H. apply AdView_get_Ok in H.
  destruct H as (rows & pg & items & np & Hrows & Hpg & Hitems & _ & ->).
  exists items, (map Ad.price (Paginator.items pg)).
  split; [reflexivity |]. split.
  - apply mapM_Forall2 in Hitems. rewrite map_map.
    induction Hitems as [| ad j ads js Hj _ IH]; simpl; [reflexivity |].
    rewrite (AdView_item_price _ _ _ _ Hj), IH. reflexivity.
  - apply (StronglySorted_map Z.ge Ad.price).
    apply get_page_Ok in Hpg. destruct Hpg as (n & Hn).
    apply page_Ok in Hn. destruct Hn as (bottom & top & _ & ->).
    apply (slice_sorted price_desc).
    unfold AdView_object_list in Hrows.
    apply bind_Ok in Hrows. destruct Hrows as (l1 & _ & Hrows).
    apply bind_Ok in Hrows. destruct Hrows as (l4 & _ & Hrows).
    apply bind_Ok in Hrows. destruct Hrows as (l5 & _ & Hrows).
    injection Hrows as <-.
    apply order_by_price_desc_sorted.
Qed.

Lemma list_ads_ordered_by_price_desc_witness :
  exists resp,
    AdView_get Sample.settings Sample.storage Sample.db (Sample.request [])
    = Ok resp /\
    exists items prices,
      field "items" (content resp) = Some (JList items) /\
      map (field "price") items = map (fun p => Some (JInt p)) prices /\
      StronglySorted Z.ge prices.
Proof.
  eexists. split; [vm_compute; reflexivity |].
  apply (list_ads_ordered_by_price_desc Sample.settings Sample.storage
           Sample.db (Sample.request [])).
  vm_compute. reflexivity.
Defined.

(** ** The list view serves a page *)

Lemma authors_exist_get_author (db : DB) (ad : Ad.t) :
  authors_exist db = true -> In ad (ads db) ->
  exists u, get_author db ad = Ok u.
Proof.
  unfold authors_exist, get_author. rewrite forallb_forall. intros H Hin.
  specialize (H ad Hin).
  destruct (get_user db (Ad.author_id ad)) as [u |]; [eauto | discriminate].
Qed.

(** With a positive page size, authors in place and numeric parameters
    that are numbers, the list view answers with the served page. *)
Lemma AdView_get_served (settings : Settings) (storage : Storage) (db : DB)
  (request : Request.t) (rows : list Ad.t) :
  0 < TOTAL_ON_PAGE settings ->
  authors_exist db = true ->
  AdView_object_list db request = Ok rows ->
  let num_pages :=
    Paginator.ceil_div (Z.max 1 (Z.of_nat (List.length rows)))
      (TOTAL_ON_PAGE settings) in
  exists items,
    mapM (AdView_item storage db)
      (page_rows (TOTAL_ON_PAGE settings)
         (served_page num_pages (get "page" (Request.GET request))) rows)
    = Ok items /\
    AdView_get settings storage db request =
    Ok (JsonResponse
          (JObj [("items", JList items);
                 ("num_pages", JInt num_pages);
                 ("total", JInt (Z.of_nat (List.length rows)))]%string)
          200).
Proof.
  intros Hp Ha Hrows np.
  pose proof (get_page_served
                {| Paginator.object_list := rows;
                   Paginator.per_page := TOTAL_ON_PAGE settings |}
                (get "page" (Request.GET request)) Hp) as (_ & Hpg).
  pose proof (num_pages_Ok
                {| Paginator.object_list := rows;
                   Paginator.per_page := TOTAL_ON_PAGE settings |} Hp)
    as (Hnp & _).
  unfold Paginator.count in Hpg, Hnp.
  cbn [Paginator.object_list Paginator.per_page] in Hpg, Hnp.
  fold np in Hpg, Hnp.
  destruct (mapM_total (AdView_item storage db)
              (page_rows (TOTAL_ON_PAGE settings)
                 (served_page np (get "page" (Request.GET request))) rows))
    as (items & Hitems).
  { intros ad Hin. apply page_rows_In in Hin.
    apply (AdView_object_list_In _ _ _ Hrows) in Hin. destruct Hin as (Hin & _).
    destruct (authors_exist_get_author db ad Ha Hin) as (u & Hu).
    unfold AdView_item. rewrite Hu. simpl. eauto. }
  exists items. split; [exact Hitems |].
  unfold AdView_get. rewrite Hrows. cbn [bind]. rewrite Hpg.
  cbn [bind Paginator.items]. rewrite Hitems. cbn [bind]. rewrite Hnp.
  reflexivity.
Qed.



(** ** Claim C3: a page beyond the last one *)

(** C3, as the code has it.  For a page number above the number of pages
    the list view does not fail and answers with the rows of the last
    page, which are not empty unless the filtered result is empty. *)
Theorem list_ads_page_beyond_last
  (settings : Settings) (storage : Storage) (db : DB) (request : Request.t)
  (rows : list Ad.t) (value : string) (n : Z) :
  0 < TOTAL_ON_PAGE settings ->
  authors_exist db = true ->
  AdView_object_list db request = Ok rows ->
  get "page" (Request.GET request) = Some value ->
  int value = Some n ->
  let num_pages :=
    Paginator.ceil_div (Z.max 1 (Z.of_nat (List.length rows)))
      (TOTAL_ON_PAGE settings) in
  n > num_pages ->
  exists items,
    AdView_get settings storage db request =
    Ok (JsonResponse
          (JObj [("items", JList items);
                 ("num_pages", JInt num_pages);
                 ("total", JInt (Z.of_nat (List.length rows)))]%string)
          200) /\
    mapM (AdView_item storage db)
      (page_rows (TOTAL_ON_PAGE settings) num_pages rows) = Ok items /\
    (rows <> [] -> items <> []).
Proof.
  intros Hp Ha Hrows Hpage Hint np Hn.
  destruct (AdView_get_served settings storage db request rows Hp Ha Hrows)
    as (items & Hitems & Hget).
  fold np in Hitems, Hget.
  assert (E : served_page np (get "page" (Request.GET request)) = np).
  { unfold served_page. rewrite Hpage, Hint.
    destruct (Z.leb_spec n np); [lia |]. rewrite andb_false_r. reflexivity. }
  rewrite E in Hitems. exists items. split; [exact Hget |].
  split; [exact Hitems |].
  intros Hne ->. apply mapM_length in Hitems. simpl in Hitems.
  apply (last_page_not_empty (TOTAL_ON_PAGE settings) rows Hp Hne).
  fold np. destruct (page_rows (TOTAL_ON_PAGE settings) np rows);
    [reflexivity | discriminate].
Qed.

Lemma list_ads_page_beyond_last_witness :
  exists items,
    AdView_get Sample.settings Sample.storage Sample.db Sample.page_four =
    Ok (JsonResponse
          (JObj [("items", JList items);
                 ("num_pages", JInt 3);
                 ("total", JInt 5)]%string)
          200) /\
    items <> [].
Proof.
  destruct (list_ads_page_beyond_last Sample.settings Sample.storage Sample.db
              Sample.page_four Sample.by_price "4" 4
              eq_refl eq_refl eq_refl eq_refl eq_refl eq_refl)
    as (items & Hget & _ & Hne).
  exists items. split; [exact Hget |]. apply Hne. discriminate.
Defined.

(** The claim as stated fails: with five ads and pages of two, page 4 is
    beyond the three pages, and the answer carries the ad of page 3. *)
Lemma list_ads_page_beyond_last_counterexample :
  ~ (forall (settings : Settings) (storage : Storage) (db : DB)
            (request : Request.t) (rows : list Ad.t) (value : string)
            (n num_pages : Z),
        AdView_object_list db request = Ok rows ->
        get "page" (Request.GET request) = Some value ->
        int value = Some n ->
        Paginator.num_pages
          {| Paginator.object_list := rows;
             Paginator.per_page := TOTAL_ON_PAGE settings |} = Ok num_pages ->
        n > num_pages ->
        exists resp,
          AdView_get settings storage db request = Ok resp /\
          field "items" (content resp) = Some (JList [])).
Proof.
  intros H.
  destruct (H Sample.settings Sample.storage Sample.db Sample.page_four
              Sample.by_price "4"%string 4 3
              eq_refl eq_refl eq_refl eq_refl eq_refl)
    as (resp & Hget & Hitems).
  vm_compute in Hget. injection Hget as <-. discriminate Hitems.
Qed.

(** ** Claim C4: the page metadata and the default page *)




(** ** Claim C9: unpublished ads are listed *)



(** ** Claim C7: deleting a category *)

(** C7.  Deleting a category whose id is not in the table leaves the
    database as it is and answers 404 with the body
    [{"error": "Category not found"}], as a response and not as an
    exception; deleting one that is there answers 200 with
    [{"status": "ok"}] and the id is no longer found. *)
Theorem category_delete_responses (request : Request.t) (db : DB) :
  (get_category db (Request.pk request) = None ->
   CategoryDeleteView_delete request db =
   (db,
    Ok (JsonResponse (JObj [("error", JStr "Category not found")]%string) 404)))
  /\
  (forall c,
      get_category db (Request.pk request) = Some c ->
      exists db',
        CategoryDeleteView_delete request db =
        (db', Ok (JsonResponse (JObj [("status", JStr "ok")]%string) 200)) /\
        get_category db' (Request.pk request) = None).
Proof.
  unfold CategoryDeleteView_delete. split.
  - intros ->. reflexivity.
  - intros c Hc. rewrite Hc. simpl. eexists. split; [reflexivity |].
    unfold get_category in *. apply find_some in Hc. destruct Hc as (_ & Hid).
    apply Z.eqb_eq in Hid.
    destruct (find _ (categories (Category_delete c db))) as [c' |] eqn:E;
      [| reflexivity].
    apply find_some in E. destruct E as (Hin & Hid').
    unfold Category_delete in Hin. simpl in Hin. apply filter_In in Hin.
    destruct Hin as (_ & Hneq). apply Z.eqb_eq in Hid'.
    rewrite Hid', Hid, Z.eqb_refl in Hneq. discriminate.
Qed.

Lemma category_delete_responses_witness :
  CategoryDeleteView_delete (Sample.on_object 7 None) Sample.db =
  (Sample.db,
   Ok (JsonResponse (JObj [("error", JStr "Category not found")]%string) 404))
  /\
  exists db',
    CategoryDeleteView_delete (Sample.on_object 2 None) Sample.db =
    (db', Ok (JsonResponse (JObj [("status", JStr "ok")]%string) 200)).
Proof.
  split.
  - apply (category_delete_responses (Sample.on_object 7 None) Sample.db).
    reflexivity.
  - destruct (category_delete_responses (Sample.on_object 2 None) Sample.db)
      as (_ & H).
    destruct (H Sample.sport eq_refl) as (db' & Hd & _).
    exists db'. exact Hd.
Defined.

(** ** Claim C8: creating an ad with a reference that does not exist *)




(** ** Claim C5: the permission gate of the ad views *)

(** C5, as the code has it.  The retrieve, update and delete views of an
    ad turn down every request that carries no identity, whatever the
    serializers and the owner permission they are given, and leave the
    database as it is. *)
Theorem ad_rest_views_require_authentication
  (AdDetailSerializer_data : DB -> Ad.t -> json)
  (AdDetailSerializer_update : DB -> Ad.t -> AdData.t -> result Ad.t)
  (AdUpdatePermission : Permission)
  (request : Request.t) (db : DB) :
  Request.user request = None ->
  AdDetailView_get AdDetailSerializer_data request db
  = (db, Raise NotAuthenticated) /\
  AdUpdateView_update AdDetailSerializer_data AdDetailSerializer_update
    AdUpdatePermission request db
  = (db, Raise NotAuthenticated) /\
  AdDeleteView_delete AdUpdatePermission request db
  = (db, Raise NotAuthenticated).
Proof.
  intros Hu.
  assert (Hd : forall rest,
    check_permissions (IsAuthenticated :: rest) request
    = Raise NotAuthenticated).
  { intros rest. unfold check_permissions, permission_denied. simpl.
    rewrite Hu. reflexivity. }
  unfold AdDetailView_get, AdUpdateView_update, AdDeleteView_delete,
    AdDetailView_permission_classes, AdUpdateView_permission_classes,
    AdDeleteView_permission_classes.
  rewrite !Hd. repeat split; reflexivity.
Qed.

Lemma ad_rest_views_require_authentication_witness :
  AdDeleteView_delete Sample.owner_only (Sample.on_object 1 None) Sample.db
  = (Sample.db, Raise NotAuthenticated).
Proof.
  apply (ad_rest_views_require_authentication Sample.serializer_data
           Sample.serializer_update Sample.owner_only
           (Sample.on_object 1 None) Sample.db eq_refl).
Defined.

(** The claim as stated fails for creation: the create view has no
    permission gate, and a request without an identity adds an ad. *)
Lemma ad_create_requires_authentication_counterexample :
  ~ (forall (storage : Storage) (request : Request.t) (db : DB),
        Request.user request = None ->
        exists e,
          AdCreateView_post storage request db = (db, Raise e) /\
          (e = NotAuthenticated \/ e = PermissionDenied)).
Proof.
  intros H.
  destruct (H Sample.storage Sample.create_bike Sample.db eq_refl)
    as (e & He & _).
  vm_compute in He. discriminate He.
Qed.

(** ** Claim C6: one representation for create and list *)

Lemma next_id_fresh (l : list Ad.t) (ad : Ad.t) :
  In ad l -> Ad.id ad < next_id l.
Proof.
  unfold next_id. induction l as [| h t IH]; cbn [In map fold_right]; [tauto |].
  intros [-> | H]; [lia | specialize (IH H); lia].
Qed.

Lemma AdView_item_id (storage : Storage) (db : DB) (ad : Ad.t) (j : json) :
  AdView_item storage db ad = Ok j -> field "id" j = Some (JInt (Ad.id ad)).
Proof.
  unfold AdView_item. intros H. apply bind_Ok in H.
  destruct H as (u & _ & H). injection H as <-. reflexivity.
Qed.

Lemma Forall2_In_r {A B : Type} (R : A -> B -> Prop) (l : list A) (l' : list B)
  (b : B) :
  Forall2 R l l' -> In b l' -> exists a, In a l /\ R a b.
Proof.
  induction 1 as [| x y xs ys Hxy _ IH]; simpl; [tauto |].
  intros [<- | H].
  - exists x. tauto.
  - destruct (IH H) as (a & Ha & Hr). exists a. tauto.
Qed.

(** Every item of a list response is the dictionary of a row of the
    table. *)
Lemma AdView_get_items (settings : Settings) (storage : Storage) (db : DB)
  (request : Request.t) (resp : HttpResponse) (items : list json) (item : json) :
  AdView_get settings storage db request = Ok resp ->
  field "items" (content resp) = Some (JList items) ->
  In item items ->
  exists ad, In ad (ads db) /\ AdView_item storage db ad = Ok item.
Proof.
  intros H Hf Hin. apply AdView_get_Ok in H.
  destruct H as (rows & pg & items' & np & Hrows & Hpg & Hitems & _ & ->).
  simpl in Hf. injection Hf as ->.
  apply mapM_Forall2 in Hitems.
  destruct (Forall2_In_r _ _ _ _ Hitems Hin) as (ad & Had & Hitem).
  exists ad. split; [| exact Hitem].
  apply get_page_Ok in Hpg. destruct Hpg as (n & Hn).
  apply page_Ok in Hn. destruct Hn as (bottom & top & _ & E).
  rewrite E in Had. simpl in Had. unfold Paginator.slice in Had.
  apply firstn_In, skipn_In in Had.
  apply (AdView_object_list_In _ _ _ Hrows) in Had. tauto.
Qed.





(** ** Claim C10: the frame of an image upload *)

Lemma find_map_same {A : Type} (p : A -> bool) (f : A -> A) (l : list A) :
  (forall a, p (f a) = p a) ->
  find p (map f l) = option_map f (find p l).
Proof.
  intros Hp. induction l as [| h t IH]; simpl; [reflexivity |].
  rewrite Hp. destruct (p h); [reflexivity | exact IH].
Qed.

(** C10.  An upload for an ad that exists leaves the users and the
    categories as they are and rewrites the table of ads row by row: a
    row with another id is kept as it is, the row of the ad keeps its id,
    name, author, price, description, publication flag and category and
    takes the stored upload as its image, or no image when the request
    carries no file under [image]. *)
Theorem upload_image_changes_image_only
  (storage : Storage) (request : Request.t) (db : DB) (object : Ad.t) :
  get_ad db (Request.pk request) = Some object ->
  exists db' result object',
    AdUploadImageView_post storage request db = (db', result) /\
    users db' = users db /\
    categories db' = categories db /\
    Forall2
      (fun old new =>
         if Ad.id old =? Request.pk request then new = object' else new = old)
      (ads db) (ads db') /\
    get_ad db' (Request.pk request) = Some object' /\
    Ad.id object' = Ad.id object /\
    Ad.name object' = Ad.name object /\
    Ad.author_id object' = Ad.author_id object /\
    Ad.price object' = Ad.price object /\
    Ad.description object' = Ad.description object /\
    Ad.is_published object' = Ad.is_published object /\
    Ad.category_id object' = Ad.category_id object /\
    Ad.image object' = uploaded_image storage request /\
    (get "image" (Request.FILES request) = None -> Ad.image object' = None) /\
    (authors_exist db = true ->
     exists resp,
       result = Ok resp /\ status_code resp = 200 /\
       keys (content resp) = ad_fields /\
       field "image" (content resp)
       = Some (image_url storage (uploaded_image storage request))).
Proof.
  intros Hobj.
  assert (Hfound := Hobj). unfold get_ad in Hfound.
  apply find_some in Hfound. destruct Hfound as (Hin & Hpk).
  apply Z.eqb_eq in Hpk.
  unfold AdUploadImageView_post. rewrite Hobj. cbn [get_object_or_404].
  fold (uploaded_image storage request).
  set (object' := Ad.with_image (uploaded_image storage request) object).
  eexists. eexists. exists object'.
  split; [reflexivity |]. split; [reflexivity |]. split; [reflexivity |].
  split.
  { unfold Ad_save. cbn [ads with_ads].
    change (Ad.id object') with (Ad.id object). rewrite Hpk.
    clear Hin Hobj.
    induction (ads db) as [| h t IH]; simpl; constructor.
    - destruct (Ad.id h =? Request.pk request); reflexivity.
    - apply IH. }
  split.
  { unfold get_ad, Ad_save. cbn [ads with_ads].
    rewrite find_map_same.
    - fold (get_ad db (Request.pk request)). rewrite Hobj. simpl.
      change (Ad.id object') with (Ad.id object).
      rewrite Z.eqb_refl. reflexivity.
    - intros a. destruct (Z.eqb_spec (Ad.id a) (Ad.id object')) as [E | _];
        [| reflexivity].
      change (Ad.id object') with (Ad.id object) in *. rewrite E. reflexivity. }
  do 8 (split; [reflexivity |]).
  split.
  { intros Hnone. subst object'. unfold uploaded_image. rewrite Hnone.
    reflexivity. }
  intros Ha.
  destruct (authors_exist_get_author db object Ha Hin) as (u & Hu).
  assert (Hu' : get_author (Ad_save object' db) object' = Ok u) by exact Hu.
  rewrite Hu'. cbn [bind]. eexists. split; [reflexivity |].
  split; [reflexivity |]. split; reflexivity.
Qed.

Lemma upload_image_changes_image_only_witness :
  exists db' result,
    AdUploadImageView_post Sample.storage (Sample.upload 1) Sample.db
    = (db', result) /\
    get_ad db' 1
    = Some (Ad.with_image (Some "images/photo.png"%string) Sample.bike) /\
    get_ad db' 2 = Some Sample.car.
Proof.
  destruct (upload_image_changes_image_only Sample.storage (Sample.upload 1)
              Sample.db Sample.bike eq_refl)
    as (db' & result & object' & Hpost & _).
  exists db', result. split; [exact Hpost |].
  vm_compute in Hpost. injection Hpost as <- _. split; reflexivity.
Defined.

(** * Further properties of the views *)

(** ** The list view: malformed numbers *)

Lemma mapM_to_python_Raise (values : list string) (e : exception) :
  mapM to_python values = Raise e -> e = ValueError.
Proof.
  induction values as [| v t IH]; simpl; [discriminate |].
  unfold to_python at 1. destruct (int v); simpl.
  - destruct (mapM to_python t); simpl; [discriminate |].
    intros H. injection H as <-. apply IH. reflexivity.
  - intros H. injection H as <-. reflexivity.
Qed.

Lemma AdView_object_list_Raise (db : DB) (request : Request.t) (e : exception) :
  AdView_object_list db request = Raise e -> e = ValueError.
Proof.
  unfold AdView_object_list, filter_category_id__in, filter_price__gte,
    filter_price__lte, to_python.
  destruct (getlist "cat" (Request.GET request)) as [| v vs].
  - cbn [bind].
    destruct (truthy (get "price_from" (Request.GET request))) as [f |];
      [destruct (int f) |];
      destruct (truthy (get "price_to" (Request.GET request))) as [t |];
      try destruct (int t); cbn [bind]; intros H; inversion H; reflexivity.
  - destruct (mapM (fun v0 => match int v0 with
                              | Some z => Ok z
                              | None => Raise ValueError
                              end) (v :: vs)) as [ids | e'] eqn:E.
    + cbn [bind].
      destruct (truthy (get "price_from" (Request.GET request))) as [f |];
        [destruct (int f) |];
        destruct (truthy (get "price_to" (Request.GET request))) as [t |];
        try destruct (int t); cbn [bind]; intros H; inversion H; reflexivity.
    + cbn [bind]. intros H. injection H as <-.
      apply (mapM_to_python_Raise (v :: vs)). exact E.
Qed.

Lemma mapM_to_python_not_number (values : list string) (value : string) :
  In value values -> int value = None ->
  mapM to_python values = Raise ValueError.
Proof.
  intros Hin Hnone. induction values as [| v t IH]; [destruct Hin |].
  cbn [mapM]. unfold to_python at 1.
  destruct Hin as [-> | Hin].
  - rewrite Hnone. reflexivity.
  - destruct (int v); [| reflexivity].
    cbn [bind]. rewrite (IH Hin). reflexivity.
Qed.

(** X1.  When one of the [cat] values is an ASCII string that [int()]
    does not read, the list view raises [ValueError] (a 500 answer),
    whatever the other parameters, before the pager and the projection
    run. *)
Theorem list_ads_value_error
  (settings : Settings) (storage : Storage) (db : DB) (request : Request.t)
  (value : string) :
  In value (getlist "cat" (Request.GET request)) ->
  is_ascii value = true ->
  int value = None ->
  AdView_object_list db request = Raise ValueError /\
  AdView_get settings storage db request = Raise ValueError /\
  response_status (AdView_get settings storage db request) = 500.
Proof.
  intros Hin _ Hnone.
  assert (E : AdView_object_list db request = Raise ValueError).
  { unfold AdView_object_list, filter_category_id__in.
    rewrite (mapM_to_python_not_number _ _ Hin Hnone).
    destruct (getlist "cat" (Request.GET request)); [destruct Hin |].
    reflexivity. }
  unfold AdView_get. rewrite E. repeat split; reflexivity.
Qed.

Lemma list_ads_value_error_witness :
  AdView_get Sample.settings Sample.storage Sample.db Sample.cat_x
  = Raise ValueError.
Proof.
  apply (list_ads_value_error Sample.settings Sample.storage Sample.db
           Sample.cat_x "x"); [simpl; tauto | reflexivity | reflexivity].
Defined.

(** ** The list view: the price range *)

(** X2.  When both bounds are given, every listed ad has its price
    between [price_from] and [price_to], so the list is empty when
    [price_from] is above [price_to]. *)
Theorem list_ads_price_range
  (db : DB) (request : Request.t) (rows : list Ad.t)
  (value_from value_to : string) (price_from price_to : Z) :
  AdView_object_list db request = Ok rows ->
  truthy (get "price_from" (Request.GET request)) = Some value_from ->
  int value_from = Some price_from ->
  truthy (get "price_to" (Request.GET request)) = Some value_to ->
  int value_to = Some price_to ->
  (forall ad, In ad rows -> price_from <= Ad.price ad <= price_to) /\
  (price_to < price_from -> rows = []).
Proof.
  intros Hrows Hf Hfi Ht Hti.
  assert (B : forall ad, In ad rows -> price_from <= Ad.price ad <= price_to).
  { intros ad Hin. apply (AdView_object_list_In _ _ _ Hrows) in Hin.
    destruct Hin as (_ & Hs). unfold satisfies_filters in Hs.
    rewrite !andb_true_iff in Hs. destruct Hs as [[_ Hge] Hle].
    unfold price_from_matches in Hge. unfold price_to_matches in Hle.
    rewrite Hf, Hfi in Hge. rewrite Ht, Hti in Hle. lia. }
  split; [exact B |].
  intros Hlt. destruct rows as [| ad t]; [reflexivity |].
  specialize (B ad (or_introl eq_refl)). lia.
Qed.

Lemma list_ads_price_range_witness :
  200 <= Ad.price Sample.skis <= 300 /\ 200 <= Ad.price Sample.scooter <= 300.
Proof.
  destruct (list_ads_price_range Sample.db Sample.from_200_to_300
              [Sample.scooter; Sample.skis] "200" "300" 200 300
              eq_refl eq_refl eq_refl eq_refl eq_refl) as (H & _).
  split; apply H; simpl; tauto.
Defined.

(** ** The list view: the pages *)

(** X3.  With a positive page size, a list response never carries more
    items than the page size, nor more than its own [total]. *)
Theorem list_ads_page_size
  (settings : Settings) (storage : Storage) (db : DB) (request : Request.t)
  (resp : HttpResponse) :
  0 < TOTAL_ON_PAGE settings ->
  AdView_get settings storage db request = Ok resp ->
  exists items total,
    field "items" (content resp) = Some (JList items) /\
    field "total" (content resp) = Some (JInt total) /\
    Z.of_nat (List.length items) <= TOTAL_ON_PAGE settings /\
    Z.of_nat (List.length items) <= total.
Proof.
  intros Hp H. apply AdView_get_Ok in H.
  destruct H as (rows & pg & items & np & _ & Hpg & Hitems & _ & ->).
  exists items, (Z.of_nat (List.length rows)).
  split; [reflexivity |]. split; [reflexivity |].
  apply mapM_length in Hitems. rewrite Hitems.
  pose proof (get_page_served
                {| Paginator.object_list := rows;
                   Paginator.per_page := TOTAL_ON_PAGE settings |}
                (get "page" (Request.GET request)) Hp) as (Hn & Hserved).
  rewrite Hserved in Hpg. injection Hpg as <-.
  cbn [Paginator.items Paginator.per_page Paginator.object_list] in Hn |- *.
  destruct Hn as (Hn & _).
  set (n := served_page _ _) in *.
  rewrite page_rows_length; [| exact Hp | exact Hn].
  assert (n * TOTAL_ON_PAGE settings
          = (n - 1) * TOTAL_ON_PAGE settings + TOTAL_ON_PAGE settings) by ring.
  assert (0 <= (n - 1) * TOTAL_ON_PAGE settings) by nia.
  split; lia.
Qed.

Lemma list_ads_page_size_witness :
  exists resp items,
    AdView_get Sample.settings Sample.storage Sample.db Sample.page_two
    = Ok resp /\
    field "items" (content resp) = Some (JList items) /\
    Z.of_nat (List.length items) <= 2.
Proof.
  eexists.
  destruct (list_ads_page_size Sample.settings Sample.storage Sample.db
              Sample.page_two _ eq_refl eq_refl)
    as (items & total & Hitems & _ & Hle & _).
  exists items. split; [reflexivity |]. split; [exact Hitems | exact Hle].
Defined.

Lemma page_rows_window (per_page n : Z) (rows : list Ad.t) :
  0 < per_page -> 1 <= n ->
  page_rows per_page n rows =
  firstn (Z.to_nat per_page) (skipn (Z.to_nat ((n - 1) * per_page)) rows).
Proof.
  intros Hp Hn. unfold page_rows, Paginator.slice.
  destruct (Z.le_gt_cases ((n - 1) * per_page + per_page)
              (Z.of_nat (List.length rows))) as [Hle | Hgt].
  - f_equal. lia.
  - rewrite !firstn_all2; [reflexivity | |]; rewrite length_skipn; nia.
Qed.

Lemma firstn_plus {A : Type} (a b : nat) (l : list A) :
  firstn (a + b) l = firstn a l ++ firstn b (skipn a l).
Proof.
  revert l. induction a as [| a IH]; intros l; simpl; [reflexivity |].
  destruct l as [| h t]; simpl.
  - destruct b; reflexivity.
  - rewrite IH. reflexivity.
Qed.

Lemma pages_concat (per_page : Z) (rows : list Ad.t) (k : nat) :
  0 < per_page ->
  flat_map (fun n => page_rows per_page (Z.of_nat n) rows) (seq 1 k)
  = firstn (k * Z.to_nat per_page) rows.
Proof.
  intros Hp. induction k as [| k IH]; [reflexivity |].
  rewrite seq_S, flat_map_app, IH. cbn [flat_map]. rewrite app_nil_r.
  rewrite page_rows_window by lia.
  replace (Z.to_nat ((Z.of_nat (1 + k) - 1) * per_page))
    with (k * Z.to_nat per_page)%nat by nia.
  replace (S k * Z.to_nat per_page)%nat
    with (k * Z.to_nat per_page + Z.to_nat per_page)%nat by lia.
  rewrite firstn_plus. reflexivity.
Qed.

(** X4.  With a positive page size every page from 1 to the number of
    pages is served, holds at most the page size and, but for the last
    one, exactly the page size; the pages put one after the other give
    back the whole list, in order. *)
Theorem pages_partition_rows (p : Paginator.t) :
  0 < Paginator.per_page p ->
  let num_pages :=
    Paginator.ceil_div (Z.max 1 (Paginator.count p)) (Paginator.per_page p) in
  (forall n,
      1 <= n <= num_pages ->
      exists pg,
        Paginator.page p n = Ok pg /\
        Z.of_nat (List.length (Paginator.items pg)) <= Paginator.per_page p /\
        (n < num_pages ->
         Z.of_nat (List.length (Paginator.items pg)) = Paginator.per_page p)) /\
  flat_map
    (fun n =>
       match Paginator.page p (Z.of_nat n) with
       | Ok pg => Paginator.items pg
       | Raise _ => []
       end)
    (seq 1 (Z.to_nat num_pages))
  = Paginator.object_list p.
Proof.
  intros Hp np.
  pose proof (ceil_div_bounds (Z.max 1 (Paginator.count p)) _ Hp) as B.
  fold np in B.
  assert (Hc : Paginator.count p = Z.of_nat (List.length (Paginator.object_list p)))
    by reflexivity.
  split.
  - intros n Hn. eexists. split; [apply page_in_range; assumption |].
    cbn [Paginator.items]. rewrite page_rows_length; [| exact Hp | lia].
    assert (n * Paginator.per_page p
            = (n - 1) * Paginator.per_page p + Paginator.per_page p) by ring.
    assert (0 <= (n - 1) * Paginator.per_page p) by nia.
    split; [lia |]. intros Hlt.
    assert (n * Paginator.per_page p <= (np - 1) * Paginator.per_page p) by nia.
    assert (Paginator.per_page p * (np - 1) = (np - 1) * Paginator.per_page p)
      by ring.
    lia.
  - transitivity
      (flat_map
         (fun n =>
            page_rows (Paginator.per_page p) (Z.of_nat n)
              (Paginator.object_list p))
         (seq 1 (Z.to_nat np))).
    + rewrite !flat_map_concat_map. f_equal.
      apply map_ext_in. intros n Hin. apply in_seq in Hin.
      rewrite page_in_range; [reflexivity | exact Hp | fold np; lia].
    + rewrite pages_concat by exact Hp.
      apply firstn_all2. nia.
Qed.

Lemma pages_partition_rows_witness :
  flat_map
    (fun n =>
       match
         Paginator.page
           {| Paginator.object_list := Sample.by_price;
              Paginator.per_page := 2 |} (Z.of_nat n)
       with
       | Ok pg => Paginator.items pg
       | Raise _ => []
       end)
    [1; 2; 3]%nat
  = Sample.by_price.
Proof.
  apply (pages_partition_rows
           {| Paginator.object_list := Sample.by_price;
              Paginator.per_page := 2 |} eq_refl).
Defined.

(** X5.  For an integer page number within the range, the items of the
    answer are the dictionaries of the rows from position
    [(n - 1) * page size] on, at most a page of them, in the order of the
    list. *)
Theorem list_ads_page_in_range
  (settings : Settings) (storage : Storage) (db : DB) (request : Request.t)
  (rows : list Ad.t) (value : string) (n : Z) :
  0 < TOTAL_ON_PAGE settings ->
  authors_exist db = true ->
  AdView_object_list db request = Ok rows ->
  get "page" (Request.GET request) = Some value ->
  int value = Some n ->
  let num_pages :=
    Paginator.ceil_div (Z.max 1 (Z.of_nat (List.length rows)))
      (TOTAL_ON_PAGE settings) in
  1 <= n <= num_pages ->
  exists items,
    AdView_get settings storage db request =
    Ok (JsonResponse
          (JObj [("items", JList items);
                 ("num_pages", JInt num_pages);
                 ("total", JInt (Z.of_nat (List.length rows)))]%string)
          200) /\
    Forall2 (fun ad item => AdView_item storage db ad = Ok item)
      (firstn (Z.to_nat (TOTAL_ON_PAGE settings))
         (skipn (Z.to_nat ((n - 1) * TOTAL_ON_PAGE settings)) rows))
      items.
Proof.
  intros Hp Ha Hrows Hpage Hint np Hn.
  destruct (AdView_get_served settings storage db request rows Hp Ha Hrows)
    as (items & Hitems & Hget).
  fold np in Hitems, Hget.
  assert (E : served_page np (get "page" (Request.GET request)) = n).
  { unfold served_page. rewrite Hpage, Hint.
    destruct (Z.leb_spec 1 n); [| lia].
    destruct (Z.leb_spec n np); [reflexivity | lia]. }
  rewrite E in Hitems. exists items. split; [exact Hget |].
  rewrite <- page_rows_window by lia.
  apply mapM_Forall2. exact Hitems.
Qed.

Lemma list_ads_page_in_range_witness :
  exists items,
    AdView_get Sample.settings Sample.storage Sample.db Sample.page_two =
    Ok (JsonResponse
          (JObj [("items", JList items);
                 ("num_pages", JInt 3);
                 ("total", JInt 5)]%string)
          200) /\
    Forall2 (fun ad item => AdView_item Sample.storage Sample.db ad = Ok item)
      [Sample.scooter; Sample.skis] items.
Proof.
  apply (list_ads_page_in_range Sample.settings Sample.storage Sample.db
           Sample.page_two Sample.by_price "2" 2
           eq_refl eq_refl eq_refl eq_refl eq_refl).
  split; discriminate.
Defined.

(** X6.  An integer page number below 1 is answered like a page number
    above the range: with the rows of the last page. *)
Theorem list_ads_page_below_first
  (settings : Settings) (storage : Storage) (db : DB) (request : Request.t)
  (rows : list Ad.t) (value : string) (n : Z) :
  0 < TOTAL_ON_PAGE settings ->
  authors_exist db = true ->
  AdView_object_list db request = Ok rows ->
  get "page" (Request.GET request) = Some value ->
  int value = Some n ->
  n < 1 ->
  let num_pages :=
    Paginator.ceil_div (Z.max 1 (Z.of_nat (List.length rows)))
      (TOTAL_ON_PAGE settings) in
  exists items,
    AdView_get settings storage db request =
    Ok (JsonResponse
          (JObj [("items", JList items);
                 ("num_pages", JInt num_pages);
                 ("total", JInt (Z.of_nat (List.length rows)))]%string)
          200) /\
    mapM (AdView_item storage db)
      (page_rows (TOTAL_ON_PAGE settings) num_pages rows) = Ok items.
Proof.
  intros Hp Ha Hrows Hpage Hint Hn np.
  destruct (AdView_get_served settings storage db request rows Hp Ha Hrows)
    as (items & Hitems & Hget).
  fold np in Hitems, Hget.
  assert (E : served_page np (get "page" (Request.GET request)) = np).
  { unfold served_page. rewrite Hpage, Hint.
    destruct (Z.leb_spec 1 n); [lia | reflexivity]. }
  rewrite E in Hitems. exists items. split; assumption.
Qed.

Lemma list_ads_page_below_first_witness :
  exists items,
    AdView_get Sample.settings Sample.storage Sample.db Sample.page_zero =
    Ok (JsonResponse
          (JObj [("items", JList items);
                 ("num_pages", JInt 3);
                 ("total", JInt 5)]%string)
          200) /\
    mapM (AdView_item Sample.storage Sample.db) [Sample.bike] = Ok items.
Proof.
  apply (list_ads_page_below_first Sample.settings Sample.storage Sample.db
           Sample.page_zero Sample.by_price "0" 0
           eq_refl eq_refl eq_refl eq_refl eq_refl eq_refl).
Defined.

(** ** The list view: which rows, how many times *)

Lemma insert_by_price_Permutation (ad : Ad.t) (l : list Ad.t) :
  Permutation (insert_by_price ad l) (ad :: l).
Proof.
  induction l as [| h t IH]; simpl; [reflexivity |].
  destruct (Ad.price h <=? Ad.price ad); [reflexivity |].
  rewrite IH. apply perm_swap.
Qed.

Lemma order_by_price_desc_Permutation (l : list Ad.t) :
  Permutation (order_by_price_desc l) l.
Proof.
  unfold order_by_price_desc. induction l as [| h t IH]; simpl; [reflexivity |].
  rewrite insert_by_price_Permutation. apply perm_skip. exact IH.
Qed.

(** Two queryset filters in a row keep the rows that pass both. *)
Lemma chained_filters (first second : Ad.t -> bool) (qs : list Ad.t) :
  filter second (filter first qs)
  = filter (fun ad => (first ad && second ad)%bool) qs.
Proof.
  induction qs as [| row rest IH]; [reflexivity |].
  cbn [filter]. destruct (first row) eqn:Hfirst; cbn [andb filter].
  - rewrite IH. reflexivity.
  - exact IH.
Qed.

(** X7.  Without the [location] parameter the listed rows are the rows
    of the table that pass the filters, each one as many times as the
    table has it, in another order at most; so with unique ads no ad is
    listed twice. *)
Theorem list_ads_rows_without_location
  (db : DB) (request : Request.t) (rows : list Ad.t) :
  AdView_object_list db request = Ok rows ->
  truthy (get "location" (Request.GET request)) = None ->
  Permutation rows
    (filter (satisfies_filters db (Request.GET request)) (ads db)) /\
  (NoDup (ads db) -> NoDup rows).
Proof.
  intros Hrows Hloc.
  assert (P : Permutation rows
    (filter (satisfies_filters db (Request.GET request)) (ads db))).
  { unfold AdView_object_list in Hrows. rewrite Hloc in Hrows.
    apply bind_Ok in Hrows. destruct Hrows as (l1 & H1 & Hrows).
    apply bind_Ok in Hrows. destruct Hrows as (l4 & H4 & Hrows).
    apply bind_Ok in Hrows. destruct Hrows as (l5 & H5 & Hrows).
    injection Hrows as <-. rewrite order_by_price_desc_Permutation.
    assert (E1 : l1 = filter (cat_matches (Request.GET request)) (ads db)).
    { unfold cat_matches.
      destruct (getlist "cat" (Request.GET request)) as [| v vs].
      - injection H1 as <-. clear. induction (ads db) as [| h t IH];
          simpl; congruence.
      - unfold filter_category_id__in in H1. apply bind_Ok in H1.
        destruct H1 as (ids & Hids & H1). injection H1 as <-.
        apply filter_ext. intros ad. apply mapM_to_python_mem. exact Hids. }
    assert (E4 : l4 =
      filter (price_from_matches (Request.GET request))
        (filter (text_matches (Request.GET request)) l1)).
    { assert (T : match truthy (get "text" (Request.GET request)) with
                  | Some text => filter_name__icontains text l1
                  | None => l1
                  end = filter (text_matches (Request.GET request)) l1).
      { unfold text_matches.
        destruct (truthy (get "text" (Request.GET request))) as [t |];
          [reflexivity |].
        clear. induction l1 as [| h t IH]; simpl; congruence. }
      rewrite T in H4. unfold price_from_matches.
      destruct (truthy (get "price_from" (Request.GET request))) as [v |].
      - unfold filter_price__gte in H4. apply bind_Ok in H4.
        destruct H4 as (z & Hz & H4). injection H4 as <-.
        apply to_python_Ok in Hz. rewrite Hz. reflexivity.
      - injection H4 as <-.
        generalize (filter (text_matches (Request.GET request)) l1).
        intros l. induction l as [| h t IH]; simpl; congruence. }
    assert (E5 : l5 = filter (price_to_matches (Request.GET request)) l4).
    { unfold price_to_matches.
      destruct (truthy (get "price_to" (Request.GET request))) as [v |].
      - unfold filter_price__lte in H5. apply bind_Ok in H5.
        destruct H5 as (z & Hz & H5). injection H5 as <-.
        apply to_python_Ok in Hz. rewrite Hz. reflexivity.
      - injection H5 as <-. clear. induction l4 as [| h t IH];
          simpl; congruence. }
    rewrite E5, E4, E1, !chained_filters.
    match goal with
    | |- Permutation ?a ?b => replace a with b; [reflexivity |]
    end.
    apply filter_ext. intros ad.
    unfold satisfies_filters, location_matches. rewrite Hloc.
    destruct (cat_matches (Request.GET request) ad),
      (text_matches (Request.GET request) ad),
      (price_from_matches (Request.GET request) ad),
      (price_to_matches (Request.GET request) ad); reflexivity. }
  split; [exact P |].
  intros Hnd. apply (Permutation_NoDup (Permutation_sym P)).
  apply NoDup_filter. exact Hnd.
Qed.

Lemma list_ads_rows_without_location_witness :
  NoDup [Sample.racing_bike; Sample.skis].
Proof.
  apply (list_ads_rows_without_location Sample.db Sample.sport_from_200
           [Sample.racing_bike; Sample.skis] eq_refl eq_refl).
  repeat constructor; simpl; intuition discriminate.
Defined.

(** ** [AdCreateView]: all or nothing *)

Lemma AdCreateView_post_cases
  (storage : Storage) (request : Request.t) (db : DB) :
  (exists e,
      AdCreateView_post storage request db = (db, Raise e) /\
      (e = KeyError \/ e = Http404)) \/
  (exists ad resp,
      AdCreateView_post storage request db
      = (with_ads (ads db ++ [ad]) db, Ok resp) /\
      status_code resp = 200 /\
      Ad.id ad = next_id (ads db) /\
      Ad.image ad = None /\
      get_user db (Ad.author_id ad) <> None /\
      get_category db (Ad.category_id ad) <> None).
Proof.
  unfold AdCreateView_post.
  destruct (AdData.author_id (Request.body request)) as [aid |];
    cbn [getitem bind]; [| left; eauto].
  destruct (get_user db aid) as [author |] eqn:Hu;
    cbn [get_object_or_404 bind]; [| left; eauto].
  destruct (AdData.category_id (Request.body request)) as [cid |];
    cbn [getitem bind]; [| left; eauto].
  destruct (get_category db cid) as [category |] eqn:Hc;
    cbn [get_object_or_404 bind]; [| left; eauto].
  destruct (AdData.name (Request.body request)) as [name |];
    cbn [getitem bind]; [| left; eauto].
  destruct (AdData.price (Request.body request)) as [price |];
    cbn [getitem bind]; [| left; eauto].
  destruct (AdData.description (Request.body request)) as [description |];
    cbn [getitem bind]; [| left; eauto].
  destruct (AdData.is_published (Request.body request)) as [is_published |];
    cbn [getitem bind]; [| left; eauto].
  right. cbn [Ad_objects_create]. eexists. eexists.
  split; [reflexivity |]. split; [reflexivity |]. split; [reflexivity |].
  split; [reflexivity |]. cbn [Ad.author_id Ad.category_id].
  unfold get_user, get_category in *.
  pose proof (find_some _ _ Hu) as (_ & Eu). apply Z.eqb_eq in Eu.
  pose proof (find_some _ _ Hc) as (_ & Ec). apply Z.eqb_eq in Ec.
  rewrite Eu, Ec, Hu, Hc. split; discriminate.
Qed.



(** On a payload of typed values, under a schema that takes them as they
    are, the view on the decoded body is the view on the typed payload. *)
Lemma AdCreateView_post_json_typed
  (schema : Schema) (storage : Storage) (request : Request.t) (db : DB) :
  takes_typed_values schema ->
  AdCreateView_post_json schema storage
    (Some (encode (Request.body request))) db
  = AdCreateView_post storage request db.
Proof.
  intros (Hu & Hc & Hrow).
  unfold AdCreateView_post_json, AdCreateView_post, encode.
  destruct (Request.body request) as [n a p d b c].
  cbn [AdData.name AdData.author_id AdData.price AdData.description
         AdData.is_published AdData.category_id].
  destruct a as [a |]; [| destruct n, p, d, b, c; reflexivity].
  destruct c as [c |];
    [| destruct n, p, d, b; simpl; rewrite Hu; simpl;
       destruct (get_user db a); reflexivity].
  destruct n, p, d, b; simpl; rewrite Hu; simpl;
    destruct (get_user db a); simpl; try reflexivity;
    rewrite Hc; simpl; destruct (get_category db c); simpl;
    rewrite ?Hrow; reflexivity.
Qed.

(** X9.  Ad creation keeps the keys of the database: the ids of the ads
    stay unique, and every ad still has its author and its category. *)
Theorem ad_create_keeps_keys
  (storage : Storage) (request : Request.t) (db : DB) :
  NoDup (map Ad.id (ads db)) ->
  authors_exist db = true ->
  categories_exist db = true ->
  let db' := fst (AdCreateView_post storage request db) in
  NoDup (map Ad.id (ads db')) /\
  authors_exist db' = true /\
  categories_exist db' = true.
Proof.
  intros Hnd Ha Hc.
  destruct (AdCreateView_post_cases storage request db)
    as [(e & -> & He) | (ad & resp & -> & _ & Hid & _ & Hu & Hcat)];
    cbn [fst]; [repeat split; assumption |].
  split; [| split].
  - cbn [ads with_ads]. rewrite map_app. cbn [map].
    apply (Permutation_NoDup (Permutation_cons_append _ _)).
    constructor; [| exact Hnd].
    intros Hin. apply in_map_iff in Hin. destruct Hin as (x & Hx & Hin).
    apply next_id_fresh in Hin. lia.
  - unfold authors_exist in *. cbn [ads with_ads].
    rewrite forallb_app. cbn [forallb].
    change (get_user (with_ads (ads db ++ [ad]) db)) with (get_user db).
    rewrite Ha. destruct (get_user db (Ad.author_id ad)); [reflexivity |].
    congruence.
  - unfold categories_exist in *. cbn [ads with_ads].
    rewrite forallb_app. cbn [forallb].
    change (get_category (with_ads (ads db ++ [ad]) db)) with (get_category db).
    rewrite Hc. destruct (get_category db (Ad.category_id ad)); [reflexivity |].
    congruence.
Qed.

Lemma ad_create_keeps_keys_witness :
  NoDup
    (map Ad.id
       (ads (fst (AdCreateView_post Sample.storage Sample.create_bike
                    Sample.db)))).
Proof.
  apply (ad_create_keeps_keys Sample.storage Sample.create_bike Sample.db);
    [| reflexivity | reflexivity].
  repeat constructor; simpl; intuition discriminate.
Defined.

(** ** [AdUploadImageView]: the missing ad, the keys, the answer *)

(** X10.  An upload is answered 404 with the body
    [{"error": "Ads not found"}], as a response and with the database
    left as it is, exactly when no ad has the id of the request. *)
Theorem upload_image_not_found
  (storage : Storage) (request : Request.t) (db : DB) :
  get_ad db (Request.pk request) = None <->
  AdUploadImageView_post storage request db =
  (db, Ok (JsonResponse (JObj [("error", JStr "Ads not found")]%string) 404)).
Proof.
  unfold AdUploadImageView_post.
  destruct (get_ad db (Request.pk request)) as [object |];
    cbn [get_object_or_404].
  - split; [discriminate |]. intros H. exfalso.
    apply (f_equal snd) in H. cbn [snd] in H.
    destruct (get_author _ _); cbn [bind] in H; [| discriminate].
    injection H as H. discriminate H.
  - split; reflexivity.
Qed.

Lemma Ad_save_ids (object : Ad.t) (db : DB) :
  map Ad.id (ads (Ad_save object db)) = map Ad.id (ads db).
Proof.
  unfold Ad_save. cbn [ads with_ads]. rewrite map_map. apply map_ext.
  intros ad. destruct (Z.eqb_spec (Ad.id ad) (Ad.id object)); congruence.
Qed.

(** X11.  An upload keeps the keys of the database: the same ids in the
    same order, so unique ids stay unique, and every ad still has its
    author and its category. *)
Theorem upload_image_keeps_keys
  (storage : Storage) (request : Request.t) (db : DB) :
  let db' := fst (AdUploadImageView_post storage request db) in
  map Ad.id (ads db') = map Ad.id (ads db) /\
  (authors_exist db = true -> authors_exist db' = true) /\
  (categories_exist db = true -> categories_exist db' = true).
Proof.
  unfold AdUploadImageView_post.
  destruct (get_ad db (Request.pk request)) as [object |] eqn:Hobj;
    cbn [get_object_or_404 fst]; [| repeat split; trivial].
  fold (uploaded_image storage request).
  set (object' := Ad.with_image (uploaded_image storage request) object).
  split; [apply Ad_save_ids |].
  assert (Hin : In object (ads db))
    by (unfold get_ad in Hobj; apply find_some in Hobj; tauto).
  unfold authors_exist, categories_exist, Ad_save. cbn [ads with_ads].
  rewrite !forallb_forall. split; intros H ad Had;
    apply in_map_iff in Had; destruct Had as (x & <- & Hx);
    destruct (Ad.id x =? Ad.id object').
  - apply (H object Hin).
  - apply (H x Hx).
  - apply (H object Hin).
  - apply (H x Hx).
Qed.

Lemma upload_saved_object
  (storage : Storage) (request : Request.t) (db : DB) (object : Ad.t) :
  get_ad db (Request.pk request) = Some object ->
  let object' := Ad.with_image (uploaded_image storage request) object in
  get_ad (Ad_save object' db) (Request.pk request) = Some object' /\
  (authors_exist db = true ->
   exists u, get_author (Ad_save object' db) object' = Ok u).
Proof.
  intros Hobj object'.
  assert (Hfound := Hobj). unfold get_ad in Hfound.
  apply find_some in Hfound. destruct Hfound as (Hin & Hpk).
  apply Z.eqb_eq in Hpk. split.
  - unfold get_ad, Ad_save. cbn [ads with_ads]. rewrite find_map_same.
    + fold (get_ad db (Request.pk request)). rewrite Hobj. simpl.
      change (Ad.id object') with (Ad.id object).
      rewrite Z.eqb_refl. reflexivity.
    + intros a. destruct (Z.eqb_spec (Ad.id a) (Ad.id object')) as [E | _];
        [| reflexivity].
      change (Ad.id object') with (Ad.id object) in *. rewrite E. reflexivity.
  - intros Ha. exact (authors_exist_get_author db object Ha Hin).
Qed.

(** X12.  On a database where every ad has its author, the answer of an
    upload for an ad that exists is the dictionary the list view builds
    for that ad after the upload. *)
Theorem upload_image_answers_list_item
  (storage : Storage) (request : Request.t) (db : DB) (object : Ad.t) :
  authors_exist db = true ->
  get_ad db (Request.pk request) = Some object ->
  exists db' resp object',
    AdUploadImageView_post storage request db = (db', Ok resp) /\
    status_code resp = 200 /\
    get_ad db' (Request.pk request) = Some object' /\
    AdView_item storage db' object' = Ok (content resp).
Proof.
  intros Ha Hobj.
  destruct (upload_saved_object storage request db object Hobj)
    as (Hget & Hauth).
  destruct (Hauth Ha) as (u & Hu).
  unfold AdUploadImageView_post. rewrite Hobj. cbn [get_object_or_404].
  fold (uploaded_image storage request). rewrite Hu. cbn [bind].
  eexists. eexists. eexists. split; [reflexivity |].
  split; [reflexivity |].
  split; [exact Hget |]. unfold AdView_item. rewrite Hu. reflexivity.
Qed.

Lemma upload_image_answers_list_item_witness :
  exists db' resp,
    AdUploadImageView_post Sample.storage (Sample.upload 1) Sample.db
    = (db', Ok resp) /\
    field "image" (content resp) = Some (JStr "/media/images/photo.png").
Proof.
  destruct (upload_image_answers_list_item Sample.storage (Sample.upload 1)
              Sample.db Sample.bike eq_refl eq_refl)
    as (db' & resp & object' & Hpost & _).
  exists db', resp. split; [exact Hpost |].
  vm_compute in Hpost. injection Hpost as _ <-. reflexivity.
Defined.

Lemma upload_image_not_found_witness :
  AdUploadImageView_post Sample.storage (Sample.upload 9) Sample.db =
  (Sample.db,
   Ok (JsonResponse (JObj [("error", JStr "Ads not found")]%string) 404)).
Proof.
  apply (upload_image_not_found Sample.storage (Sample.upload 9) Sample.db).
  reflexivity.
Defined.

Lemma upload_image_keeps_keys_witness :
  authors_exist
    (fst (AdUploadImageView_post Sample.storage (Sample.upload 1) Sample.db))
  = true.
Proof.
  apply (upload_image_keeps_keys Sample.storage (Sample.upload 1) Sample.db).
  reflexivity.
Defined.

(** ** The REST views of an ad: what a permitted request does *)

Lemma check_permissions_pass (perm : Permission) (request : Request.t)
  (u : User.t) :
  Request.user request = Some u ->
  has_permission perm request = true ->
  check_permissions [IsAuthenticated; perm] request = Ok tt /\
  check_permissions [IsAuthenticated] request = Ok tt.
Proof.
  intros Hu Hp. unfold check_permissions. simpl. rewrite Hu, Hp.
  split; reflexivity.
Qed.

(** X13.  A delete request of an identified user that the owner
    permission lets through, for an ad that exists, answers 204 and
    removes the ad: its id is no longer found, every other id is found
    as before, and users and categories are as before. *)
Theorem ad_delete_removes_the_ad
  (AdUpdatePermission : Permission) (request : Request.t) (db : DB)
  (u : User.t) (object : Ad.t) :
  Request.user request = Some u ->
  has_permission AdUpdatePermission request = true ->
  get_ad db (Request.pk request) = Some object ->
  has_object_permission AdUpdatePermission request object = true ->
  exists db',
    AdDeleteView_delete AdUpdatePermission request db
    = (db', Ok (JsonResponse JNull 204)) /\
    get_ad db' (Request.pk request) = None /\
    (forall pk, pk <> Request.pk request -> get_ad db' pk = get_ad db pk) /\
    users db' = users db /\
    categories db' = categories db.
Proof.
  intros Hu Hp Hobj Hop.
  assert (Hpk : Ad.id object = Request.pk request).
  { unfold get_ad in Hobj. apply find_some in Hobj. destruct Hobj as (_ & E).
    apply Z.eqb_eq in E. exact E. }
  unfold AdDeleteView_delete, AdDeleteView_permission_classes.
  destruct (check_permissions_pass AdUpdatePermission request u Hu Hp)
    as (-> & _).
  cbn [bind]. unfold get_object. rewrite Hobj.
  cbn [get_object_or_404 bind forallb has_object_permission IsAuthenticated].
  rewrite Hop. cbn [andb]. eexists. split; [reflexivity |].
  unfold get_ad, Ad_delete. cbn [ads with_ads]. rewrite Hpk.
  split; [| split; [| split; reflexivity]].
  - destruct (find _ (filter _ (ads db))) as [x |] eqn:E; [| reflexivity].
    apply find_some in E. destruct E as (Hin & Hx).
    apply filter_In in Hin. destruct Hin as (_ & Hne).
    rewrite Hx in Hne. discriminate.
  - intros pk Hne. clear Hobj. induction (ads db) as [| h t IH];
      [reflexivity |].
    cbn [filter find].
    destruct (Z.eqb_spec (Ad.id h) (Request.pk request)) as [E | _];
      cbn [negb find].
    + destruct (Z.eqb_spec (Ad.id h) pk); [congruence | exact IH].
    + destruct (Ad.id h =? pk); [reflexivity | exact IH].
Qed.

Lemma ad_delete_removes_the_ad_witness :
  exists db',
    AdDeleteView_delete Sample.owner_only
      (Sample.on_object 1 (Some Sample.alice)) Sample.db
    = (db', Ok (JsonResponse JNull 204)) /\
    get_ad db' 1 = None.
Proof.
  destruct (ad_delete_removes_the_ad Sample.owner_only
              (Sample.on_object 1 (Some Sample.alice)) Sample.db
              Sample.alice Sample.bike eq_refl eq_refl eq_refl eq_refl)
    as (db' & Hd & Hnone & _).
  exists db'. split; [exact Hd | exact Hnone].
Defined.

(** X14.  When the owner permission turns the object down, the update
    and delete views answer an identified user with [PermissionDenied]
    (403) and leave the database as it is, whatever the serializer would
    do with the payload. *)
Theorem ad_write_views_check_the_object
  (AdDetailSerializer_data : DB -> Ad.t -> json)
  (AdDetailSerializer_update : DB -> Ad.t -> AdData.t -> result Ad.t)
  (AdUpdatePermission : Permission)
  (request : Request.t) (db : DB) (u : User.t) (object : Ad.t) :
  Request.user request = Some u ->
  get_ad db (Request.pk request) = Some object ->
  has_object_permission AdUpdatePermission request object = false ->
  AdUpdateView_update AdDetailSerializer_data AdDetailSerializer_update
    AdUpdatePermission request db
  = (db, Raise PermissionDenied) /\
  AdDeleteView_delete AdUpdatePermission request db
  = (db, Raise PermissionDenied) /\
  exception_status PermissionDenied = 403.
Proof.
  intros Hu Hobj Hop.
  unfold AdUpdateView_update, AdDeleteView_delete,
    AdUpdateView_permission_classes, AdDeleteView_permission_classes,
    check_permissions, get_object, permission_denied.
  rewrite Hu, Hobj. cbn [forallb has_permission IsAuthenticated].
  rewrite Hu. cbn [andb get_object_or_404 bind has_object_permission].
  rewrite Hop.
  destruct (has_permission AdUpdatePermission request);
    cbn [andb bind]; repeat split; reflexivity.
Qed.

Lemma ad_write_views_check_the_object_witness :
  AdDeleteView_delete Sample.owner_only
    (Sample.on_object 1 (Some Sample.bob)) Sample.db
  = (Sample.db, Raise PermissionDenied).
Proof.
  apply (ad_write_views_check_the_object Sample.serializer_data
           Sample.serializer_update Sample.owner_only
           (Sample.on_object 1 (Some Sample.bob)) Sample.db
           Sample.bob Sample.bike eq_refl eq_refl eq_refl).
Defined.

(** X15.  For an identified user whom the view-level permissions let
    through, the retrieve, update and delete views raise [Http404] (404)
    when no ad has the id of the request, and leave the database as it
    is. *)
Theorem ad_rest_views_not_found
  (AdDetailSerializer_data : DB -> Ad.t -> json)
  (AdDetailSerializer_update : DB -> Ad.t -> AdData.t -> result Ad.t)
  (AdUpdatePermission : Permission)
  (request : Request.t) (db : DB) (u : User.t) :
  Request.user request = Some u ->
  has_permission AdUpdatePermission request = true ->
  get_ad db (Request.pk request) = None ->
  AdDetailView_get AdDetailSerializer_data request db = (db, Raise Http404) /\
  AdUpdateView_update AdDetailSerializer_data AdDetailSerializer_update
    AdUpdatePermission request db
  = (db, Raise Http404) /\
  AdDeleteView_delete AdUpdatePermission request db = (db, Raise Http404) /\
  exception_status Http404 = 404.
Proof.
  intros Hu Hp Hnone.
  unfold AdDetailView_get, AdUpdateView_update, AdDeleteView_delete,
    AdDetailView_permission_classes, AdUpdateView_permission_classes,
    AdDeleteView_permission_classes.
  destruct (check_permissions_pass AdUpdatePermission request u Hu Hp)
    as (-> & ->).
  unfold get_object. rewrite Hnone. repeat split; reflexivity.
Qed.

Lemma ad_rest_views_not_found_witness :
  AdDetailView_get Sample.serializer_data
    (Sample.on_object 9 (Some Sample.alice)) Sample.db
  = (Sample.db, Raise Http404).
Proof.
  apply (ad_rest_views_not_found Sample.serializer_data
           Sample.serializer_update Sample.owner_only
           (Sample.on_object 9 (Some Sample.alice)) Sample.db
           Sample.alice eq_refl eq_refl eq_refl).
Defined.

(** X16.  Once an ad is deleted, no item of any list response carries
    its id. *)
Theorem ad_deleted_is_not_listed
  (AdUpdatePermission : Permission) (settings : Settings) (storage : Storage)
  (request : Request.t) (db db' : DB) (resp : HttpResponse) :
  AdDeleteView_delete AdUpdatePermission request db = (db', Ok resp) ->
  forall request' resp' items item,
    AdView_get settings storage db' request' = Ok resp' ->
    field "items" (content resp') = Some (JList items) ->
    In item items ->
    field "id" item <> Some (JInt (Request.pk request)).
Proof.
  intros Hdel request' resp' items item Hget Hitems Hin Hid.
  destruct (AdView_get_items _ _ _ _ _ _ _ Hget Hitems Hin) as (ad & Had & Hi).
  rewrite (AdView_item_id _ _ _ _ Hi) in Hid. injection Hid as Hid.
  unfold AdDeleteView_delete in Hdel.
  destruct (bind _ _) as [instance | e] eqn:E in Hdel; [| discriminate].
  injection Hdel as <- _.
  apply bind_Ok in E. destruct E as (_ & _ & E).
  unfold get_object in E. apply bind_Ok in E. destruct E as (o & Ho & E).
  destruct (forallb _ _) in E; [| discriminate]. injection E as ->.
  unfold get_object_or_404 in Ho.
  destruct (get_ad db (Request.pk request)) as [o' |] eqn:Hfind;
    [| discriminate].
  injection Ho as ->. unfold get_ad in Hfind. apply find_some in Hfind.
  destruct Hfind as (_ & Hpk). apply Z.eqb_eq in Hpk.
  unfold Ad_delete in Had. cbn [ads with_ads] in Had.
  apply filter_In in Had. destruct Had as (_ & Hne).
  rewrite Hid, Hpk, Z.eqb_refl in Hne. discriminate.
Qed.

Lemma ad_deleted_is_not_listed_witness :
  match
    AdView_get Sample.settings Sample.storage
      (Ad_delete Sample.bike Sample.db) (Sample.request [])
  with
  | Ok resp' =>
      match field "items" (content resp') with
      | Some (JList (item :: _)) => field "id" item <> Some (JInt 1)
      | _ => False
      end
  | Raise _ => False
  end.
Proof.
  destruct (AdView_get Sample.settings Sample.storage
              (Ad_delete Sample.bike Sample.db) (Sample.request []))
    as [resp' | e] eqn:Hget; [| vm_compute in Hget; discriminate Hget].
  destruct (field "items" (content resp')) as [[| | | | items |] |] eqn:Hitems;
    try (vm_compute in Hget; injection Hget as <-; discriminate Hitems).
  destruct items as [| item rest];
    [vm_compute in Hget; injection Hget as <-; discriminate Hitems |].
  apply (ad_deleted_is_not_listed Sample.owner_only Sample.settings
           Sample.storage (Sample.on_object 1 (Some Sample.alice)) Sample.db
           (Ad_delete Sample.bike Sample.db) (JsonResponse JNull 204) eq_refl
           (Sample.request []) resp' (item :: rest) item Hget Hitems).
  left. reflexivity.
Defined.

(** ** [CategoryView]: the list of categories *)

Lemma insert_by_name_Permutation (le : string -> string -> bool)
  (c : Category.t) (l : list Category.t) :
  Permutation (insert_by_name le c l) (c :: l).
Proof.
  induction l as [| h t IH]; simpl; [reflexivity |].
  destruct (le (Category.name c) (Category.name h)); [reflexivity |].
  rewrite IH. apply perm_swap.
Qed.

Lemma order_by_name_Permutation (le : string -> string -> bool)
  (l : list Category.t) :
  Permutation (order_by_name le l) l.
Proof.
  unfold order_by_name. induction l as [| h t IH]; simpl; [reflexivity |].
  rewrite insert_by_name_Permutation. apply perm_skip. exact IH.
Qed.

Section Collation.

Variable le : string -> string -> bool.
Hypothesis le_total : forall a b, le a b = true \/ le b a = true.
Hypothesis le_trans : forall a b c, le a b = true -> le b c = true -> le a c = true.

Lemma insert_by_name_sorted (c : Category.t) (l : list Category.t) :
  StronglySorted (by_name le) l ->
  StronglySorted (by_name le) (insert_by_name le c l).
Proof.
  induction 1 as [| h t Ht IH Hh]; simpl.
  - constructor; constructor.
  - destruct (le (Category.name c) (Category.name h)) eqn:E.
    + constructor; [constructor; assumption |].
      constructor; [exact E |].
      rewrite Forall_forall in Hh |- *. intros x Hx.
      unfold by_name in *. eapply le_trans; [exact E | apply Hh; exact Hx].
    + constructor; [exact IH |].
      rewrite Forall_forall in Hh |- *. intros x Hx.
      apply (Permutation_in _ (insert_by_name_Permutation le c t)) in Hx.
      destruct Hx as [<- | Hx]; [| apply Hh; exact Hx].
      unfold by_name. destruct (le_total (Category.name c) (Category.name h));
        congruence.
Qed.

Lemma order_by_name_sorted (l : list Category.t) :
  StronglySorted (by_name le) (order_by_name le l).
Proof.
  unfold order_by_name. induction l as [| h t IH]; simpl.
  - constructor.
  - apply insert_by_name_sorted. exact IH.
Qed.

End Collation.

(** X17.  Under a collation that is a total order on names, the list of
    categories answers 200 with one [{id, name}] dictionary for every
    category of the table, no more and no fewer, in the order of the
    names. *)
Theorem category_list_sorted (le : string -> string -> bool) (db : DB) :
  (forall a b, le a b = true \/ le b a = true) ->
  (forall a b c, le a b = true -> le b c = true -> le a c = true) ->
  exists listed,
    CategoryView_get le db =
    JsonResponse
      (JList
         (map
            (fun c =>
               JObj [("id", JInt (Category.id c));
                     ("name", JStr (Category.name c))]%string)
            listed))
      200 /\
    Permutation listed (categories db) /\
    StronglySorted (by_name le) listed.
Proof.
  intros Htotal Htrans. exists (order_by_name le (categories db)).
  split; [reflexivity |]. split.
  - apply order_by_name_Permutation.
  - apply order_by_name_sorted; assumption.
Qed.

Lemma String_leb_trans (a b c : string) :
  String.leb a b = true -> String.leb b c = true -> String.leb a c = true.
Proof.
  unfold String.leb. revert b c.
  induction a as [| x a IH]; intros [| y b] [| z c]; simpl; trivial;
    try discriminate.
  unfold Ascii.compare.
  destruct (N.compare_spec (N_of_ascii x) (N_of_ascii y)) as [Exy | Lxy | Gxy];
    destruct (N.compare_spec (N_of_ascii y) (N_of_ascii z)) as [Eyz | Lyz | Gyz];
    destruct (N.compare_spec (N_of_ascii x) (N_of_ascii z)) as [Exz | Lxz | Gxz];
    trivial; try discriminate; try lia.
  apply IH.
Qed.

Lemma category_list_sorted_witness :
  exists listed,
    CategoryView_get String.leb Sample.db =
    JsonResponse
      (JList
         (map
            (fun c =>
               JObj [("id", JInt (Category.id c));
                     ("name", JStr (Category.name c))]%string)
            listed))
      200 /\
    Permutation listed [Sample.transport; Sample.sport].
Proof.
  destruct (category_list_sorted String.leb Sample.db String.leb_total
              String_leb_trans) as (listed & Hget & Hperm & _).
  exists listed. split; [exact Hget | exact Hperm].
Defined.

(** ** The category views: create, update, delete, then read *)

Lemma next_category_id_fresh (l : list Category.t) (c : Category.t) :
  In c l -> Category.id c < next_category_id l.
Proof.
  unfold next_category_id.
  induction l as [| h t IH]; cbn [In map fold_right]; [tauto |].
  intros [-> | H]; [lia | specialize (IH H); lia].
Qed.

Lemma find_app_last {A : Type} (p : A -> bool) (l : list A) (x : A) :
  find p (l ++ [x]) =
  match find p l with
  | Some a => Some a
  | None => if p x then Some x else None
  end.
Proof.
  induction l as [| h t IH]; simpl; [reflexivity |].
  destruct (p h); [reflexivity | exact IH].
Qed.

Lemma get_category_fresh (db : DB) :
  get_category db (next_category_id (categories db)) = None.
Proof.
  unfold get_category.
  destruct (find _ (categories db)) as [c |] eqn:E; [| reflexivity].
  apply find_some in E. destruct E as (Hin & Hid). apply Z.eqb_eq in Hid.
  apply next_category_id_fresh in Hin. lia.
Qed.

(** X18.  Creating a category from a body with a name answers 200 with
    that name and an id that no category has; reading the new id then
    gives the same answer, reading any id that was there gives the
    answer it gave before, and users and ads are as before. *)
Theorem category_create_then_detail
  (request : Request.t) (db : DB) (name : string) :
  AdData.name (Request.body request) = Some name ->
  exists db' resp id,
    CategoryCreateView_post request db = (db', Ok resp) /\
    resp =
    JsonResponse (JObj [("id", JInt id); ("name", JStr name)]%string) 200 /\
    get_category db id = None /\
    (forall request',
        Request.pk request' = id ->
        CategoryDetailView_get request' db' = Ok resp) /\
    (forall request',
        get_category db (Request.pk request') <> None ->
        CategoryDetailView_get request' db'
        = CategoryDetailView_get request' db) /\
    users db' = users db /\
    ads db' = ads db.
Proof.
  intros Hname. unfold CategoryCreateView_post. rewrite Hname.
  cbn [getitem Category_objects_create]. eexists. eexists.
  exists (next_category_id (categories db)).
  split; [reflexivity |]. split; [reflexivity |].
  split; [apply get_category_fresh |].
  assert (Hget : forall pk,
    get_category
      (with_categories
         (categories db
          ++ [{| Category.id := next_category_id (categories db);
                 Category.name := name |}]) db) pk =
    match get_category db pk with
    | Some c => Some c
    | None =>
        if next_category_id (categories db) =? pk
        then Some {| Category.id := next_category_id (categories db);
                     Category.name := name |}
        else None
    end).
  { intros pk. unfold get_category. cbn [categories with_categories].
    rewrite find_app_last. reflexivity. }
  split; [| split; [| split; reflexivity]].
  - intros request' Hpk. unfold CategoryDetailView_get.
    rewrite Hget, Hpk, get_category_fresh, Z.eqb_refl. reflexivity.
  - intros request' Hsome. unfold CategoryDetailView_get. rewrite Hget.
    destruct (get_category db (Request.pk request')); [reflexivity | congruence].
Qed.

Lemma category_create_then_detail_witness :
  exists db' resp,
    CategoryCreateView_post (Sample.named 0 (Some "Books"%string)) Sample.db
    = (db', Ok resp) /\
    field "name" (content resp) = Some (JStr "Books") /\
    CategoryDetailView_get (Sample.on_object 3 None) db' = Ok resp.
Proof.
  destruct (category_create_then_detail (Sample.named 0 (Some "Books"%string))
              Sample.db "Books" eq_refl)
    as (db' & resp & id & Hpost & Hresp & _ & Hdetail & _).
  exists db', resp. split; [exact Hpost |].
  split; [rewrite Hresp; reflexivity |].
  apply (Hdetail (Sample.on_object 3 None)).
  vm_compute in Hpost. rewrite Hresp in Hpost. injection Hpost as _ <-.
  reflexivity.
Defined.

Lemma Category_save_get (object : Category.t) (db : DB) (pk : Z) :
  get_category (Category_save object db) pk =
  match get_category db pk with
  | Some c => Some (if Category.id c =? Category.id object then object else c)
  | None => None
  end.
Proof.
  unfold get_category, Category_save. cbn [categories with_categories].
  rewrite find_map_same; [reflexivity |].
  intros c. destruct (Z.eqb_spec (Category.id c) (Category.id object)) as [E | _];
    [rewrite E |]; reflexivity.
Qed.

(** X19.  Updating a category that exists from a body with a name
    answers 200 with its id and the new name; reading that id then gives
    this answer, every other id reads as before, the ids of the table
    are the same in the same order, and users and ads are as before. *)
Theorem category_update_renames
  (request : Request.t) (db : DB) (object : Category.t) (name : string) :
  get_category db (Request.pk request) = Some object ->
  AdData.name (Request.body request) = Some name ->
  exists db' resp,
    CategoryUpdateView_patch request db = (db', Ok resp) /\
    resp =
    JsonResponse
      (JObj [("id", JInt (Request.pk request)); ("name", JStr name)]%string)
      200 /\
    CategoryDetailView_get request db' = Ok resp /\
    (forall pk,
        pk <> Request.pk request -> get_category db' pk = get_category db pk) /\
    map Category.id (categories db') = map Category.id (categories db) /\
    users db' = users db /\
    ads db' = ads db.
Proof.
  intros Hobj Hname.
  assert (Hpk : Category.id object = Request.pk request).
  { unfold get_category in Hobj. apply find_some in Hobj.
    destruct Hobj as (_ & E). apply Z.eqb_eq in E. exact E. }
  unfold CategoryUpdateView_patch. rewrite Hobj, Hname.
  cbn [get_object_or_404 getitem Category.id Category.name]. rewrite Hpk.
  eexists. eexists. split; [reflexivity |]. split; [reflexivity |].
  split; [| split; [| split; [| split; reflexivity]]].
  - unfold CategoryDetailView_get. rewrite Category_save_get, Hobj.
    cbn [Category.id]. rewrite Hpk, Z.eqb_refl. reflexivity.
  - intros pk Hne. rewrite Category_save_get.
    destruct (get_category db pk) as [c |] eqn:Hc; [| reflexivity].
    unfold get_category in Hc. apply find_some in Hc. destruct Hc as (_ & E).
    apply Z.eqb_eq in E. cbn [Category.id].
    destruct (Z.eqb_spec (Category.id c) (Request.pk request));
      [congruence | reflexivity].
  - unfold Category_save. cbn [categories with_categories Category.id].
    rewrite map_map. apply map_ext. intros c.
    destruct (Z.eqb_spec (Category.id c) (Request.pk request));
      [symmetry; assumption | reflexivity].
Qed.

Lemma category_update_renames_witness :
  exists db',
    CategoryUpdateView_patch (Sample.named 2 (Some "Sports"%string)) Sample.db
    = (db',
       Ok (JsonResponse
             (JObj [("id", JInt 2); ("name", JStr "Sports")]%string) 200)) /\
    get_category db' 1 = Some Sample.transport.
Proof.
  destruct (category_update_renames (Sample.named 2 (Some "Sports"%string))
              Sample.db Sample.sport "Sports" eq_refl eq_refl)
    as (db' & resp & Hpatch & -> & _ & Hframe & _).
  exists db'. split; [exact Hpatch |].
  rewrite (Hframe 1); [reflexivity | discriminate].
Defined.

Lemma Category_delete_get (object : Category.t) (db : DB) (pk : Z) :
  get_category (Category_delete object db) pk =
  if pk =? Category.id object then None else get_category db pk.
Proof.
  unfold get_category, Category_delete. cbn [categories with_categories].
  induction (categories db) as [| h t IH]; cbn [filter find].
  - destruct (pk =? Category.id object); reflexivity.
  - destruct (Z.eqb_spec (Category.id h) (Category.id object)) as [E | Hne];
      cbn [negb find].
    + rewrite IH. destruct (Z.eqb_spec pk (Category.id object)) as [_ | Hp];
        [reflexivity |].
      destruct (Z.eqb_spec (Category.id h) pk); [congruence | reflexivity].
    + destruct (Z.eqb_spec (Category.id h) pk) as [E | _]; [| exact IH].
      destruct (Z.eqb_spec pk (Category.id object)); [congruence | reflexivity].
Qed.

(** X20.  After the deletion of a category that exists, reading its id
    answers 404 with [{"error": "Category not found"}], deleting it
    again answers 404 and changes nothing, and every other id reads as
    before; the users are as before. *)
Theorem category_delete_then_detail
  (request : Request.t) (db : DB) (object : Category.t) :
  get_category db (Request.pk request) = Some object ->
  let db' := fst (CategoryDeleteView_delete request db) in
  let not_found :=
    JsonResponse (JObj [("error", JStr "Category not found")]%string) 404 in
  CategoryDetailView_get request db' = Ok not_found /\
  CategoryDeleteView_delete request db' = (db', Ok not_found) /\
  (forall request',
      Request.pk request' <> Request.pk request ->
      CategoryDetailView_get request' db' = CategoryDetailView_get request' db) /\
  users db' = users db.
Proof.
  intros Hobj.
  assert (Hpk : Category.id object = Request.pk request).
  { unfold get_category in Hobj. apply find_some in Hobj.
    destruct Hobj as (_ & E). apply Z.eqb_eq in E. exact E. }
  assert (Hdel : CategoryDeleteView_delete request db =
                 (Category_delete object db,
                  Ok (JsonResponse (JObj [("status", JStr "ok")]%string) 200))).
  { unfold CategoryDeleteView_delete. rewrite Hobj. reflexivity. }
  cbv zeta. rewrite Hdel. cbn [fst].
  assert (Hnone : get_category (Category_delete object db) (Request.pk request)
                  = None).
  { rewrite Category_delete_get, Hpk, Z.eqb_refl. reflexivity. }
  split; [| split; [| split; [| reflexivity]]].
  - unfold CategoryDetailView_get. rewrite Hnone. reflexivity.
  - unfold CategoryDeleteView_delete. rewrite Hnone. reflexivity.
  - intros request' Hne. unfold CategoryDetailView_get.
    rewrite Category_delete_get, Hpk.
    destruct (Z.eqb_spec (Request.pk request') (Request.pk request));
      [congruence | reflexivity].
Qed.

Lemma category_delete_then_detail_witness :
  CategoryDetailView_get (Sample.on_object 2 None)
    (fst (CategoryDeleteView_delete (Sample.on_object 2 None) Sample.db))
  = Ok (JsonResponse (JObj [("error", JStr "Category not found")]%string) 404).
Proof.
  apply (category_delete_then_detail (Sample.on_object 2 None) Sample.db
           Sample.sport eq_refl).
Defined.

(** Removing rows never makes two ids meet. *)
Lemma category_ids_after_removal (keep : Category.t -> bool)
  (table : list Category.t) :
  NoDup (map Category.id table) ->
  NoDup (map Category.id (filter keep table)).
Proof.
  induction table as [| row rest IH]; intros Hnd; [constructor |].
  cbn [map] in Hnd. apply NoDup_cons_iff in Hnd. destruct Hnd as (Hnew & Hrest).
  cbn [filter]. destruct (keep row); [| apply IH; exact Hrest].
  cbn [map]. constructor; [| apply IH; exact Hrest].
  intros Hin. apply Hnew. apply in_map_iff in Hin.
  destruct Hin as (c & Hc & Hin). apply filter_In in Hin.
  apply in_map_iff. exists c. tauto.
Qed.

(** X22.  The category writes keep the ids of the categories unique:
    after a creation, an update or a deletion no two categories share an
    id, if none did before. *)
Theorem category_ids_stay_unique (request : Request.t) (db : DB) :
  NoDup (map Category.id (categories db)) ->
  NoDup (map Category.id
           (categories (fst (CategoryCreateView_post request db)))) /\
  NoDup (map Category.id
           (categories (fst (CategoryUpdateView_patch request db)))) /\
  NoDup (map Category.id
           (categories (fst (CategoryDeleteView_delete request db)))).
Proof.
  intros Hnd. split; [| split].
  - unfold CategoryCreateView_post.
    destruct (AdData.name (Request.body request)) as [name |];
      cbn [getitem Category_objects_create fst]; [| exact Hnd].
    cbn [categories with_categories]. rewrite map_app. cbn [map Category.id].
    apply (Permutation_NoDup (Permutation_cons_append _ _)).
    constructor; [| exact Hnd].
    intros Hin. apply in_map_iff in Hin. destruct Hin as (x & Hx & Hin).
    apply next_category_id_fresh in Hin. lia.
  - unfold CategoryUpdateView_patch.
    destruct (get_category db (Request.pk request)) as [object |];
      cbn [get_object_or_404 fst]; [| exact Hnd].
    destruct (AdData.name (Request.body request)) as [name |];
      cbn [getitem fst]; [| exact Hnd].
    unfold Category_save. cbn [categories with_categories Category.id].
    rewrite map_map.
    erewrite map_ext; [exact Hnd |].
    intros c. cbn beta.
    destruct (Z.eqb_spec (Category.id c) (Category.id object));
      [symmetry; assumption | reflexivity].
  - unfold CategoryDeleteView_delete.
    destruct (get_category db (Request.pk request)) as [object |];
      cbn [get_object_or_404 fst]; [| exact Hnd].
    unfold Category_delete. cbn [categories with_categories].
    apply category_ids_after_removal. exact Hnd.
Qed.

Lemma category_ids_stay_unique_witness :
  NoDup
    (map Category.id
       (categories
          (fst (CategoryCreateView_post (Sample.named 0 (Some "Books"%string))
                  Sample.db)))).
Proof.
  apply (category_ids_stay_unique (Sample.named 0 (Some "Books"%string))
           Sample.db).
  repeat constructor; simpl; intuition discriminate.
Defined.

(** ** The selection views: the permission gate *)

(** X23.  The create, update and delete views of a selection turn down
    every request that carries no identity with [NotAuthenticated],
    whatever the serializer and the owner permission they are given, and
    leave the selections as they are. *)
Theorem selection_views_require_authentication
  (SelectionSerializer_create :
     list Selection.t -> Request.t -> result Selection.t)
  (SelectionSerializer_update : Selection.t -> Request.t -> result Selection.t)
  (SelectionSerializer_data : Selection.t -> json)
  (SelectionUpdatePermission : PermissionOn Selection.t)
  (request : Request.t) (selections : list Selection.t) :
  Request.user request = None ->
  SelectionCreateView_post SelectionSerializer_create SelectionSerializer_data
    request selections
  = (selections, Raise NotAuthenticated) /\
  SelectionUpdateView_update SelectionSerializer_update
    SelectionSerializer_data SelectionUpdatePermission request selections
  = (selections, Raise NotAuthenticated) /\
  SelectionDeleteView_delete SelectionUpdatePermission request selections
  = (selections, Raise NotAuthenticated).
Proof.
  intros Hu.
  assert (Hd : forall rest,
    check_permissions_on (IsAuthenticatedOn Selection.t :: rest) request
    = Raise NotAuthenticated).
  { intros rest. unfold check_permissions_on, permission_denied. simpl.
    rewrite Hu. reflexivity. }
  unfold SelectionCreateView_post, SelectionUpdateView_update,
    SelectionDeleteView_delete, SelectionCreateView_permission_classes,
    SelectionUpdateView_permission_classes,
    SelectionDeleteView_permission_classes.
  rewrite !Hd. repeat split; reflexivity.
Qed.

Lemma selection_views_require_authentication_witness :
  SelectionDeleteView_delete Sample.selection_owner_only
    (Sample.on_object 1 None) Sample.selections
  = (Sample.selections, Raise NotAuthenticated).
Proof.
  apply (selection_views_require_authentication Sample.selection_create
           Sample.selection_update Sample.selection_data
           Sample.selection_owner_only (Sample.on_object 1 None)
           Sample.selections eq_refl).
Defined.

(** X24.  For an identified user whom the view-level permissions let
    through, the update and delete views of a selection raise [Http404]
    when no selection has the id of the request and [PermissionDenied]
    when the owner permission turns the selection down; both leave the
    selections as they are.  A delete that is let through answers 204
    and removes the selection and no other. *)
Theorem selection_write_views_check_the_object
  (SelectionSerializer_update : Selection.t -> Request.t -> result Selection.t)
  (SelectionSerializer_data : Selection.t -> json)
  (SelectionUpdatePermission : PermissionOn Selection.t)
  (request : Request.t) (selections : list Selection.t) (u : User.t) :
  Request.user request = Some u ->
  permits SelectionUpdatePermission request = true ->
  match get_selection selections (Request.pk request) with
  | None =>
      SelectionUpdateView_update SelectionSerializer_update
        SelectionSerializer_data SelectionUpdatePermission request selections
      = (selections, Raise Http404) /\
      SelectionDeleteView_delete SelectionUpdatePermission request selections
      = (selections, Raise Http404)
  | Some object =>
      if permits_object SelectionUpdatePermission request object
      then
        SelectionDeleteView_delete SelectionUpdatePermission request selections
        = (filter
             (fun s => negb (Selection.id s =? Request.pk request)) selections,
           Ok (JsonResponse JNull 204))
      else
        SelectionUpdateView_update SelectionSerializer_update
          SelectionSerializer_data SelectionUpdatePermission request selections
        = (selections, Raise PermissionDenied) /\
        SelectionDeleteView_delete SelectionUpdatePermission request selections
        = (selections, Raise PermissionDenied)
  end.
Proof.
  intros Hu Hp.
  unfold SelectionUpdateView_update, SelectionDeleteView_delete,
    SelectionUpdateView_permission_classes,
    SelectionDeleteView_permission_classes, check_permissions_on,
    get_object_on, permission_denied.
  cbn [forallb permits IsAuthenticatedOn has_permission IsAuthenticated].
  rewrite Hu, Hp. cbn [andb bind].
  destruct (get_selection selections (Request.pk request)) as [object |] eqn:E;
    cbn [get_object_or_404 bind permits_object andb].
  - destruct (permits_object SelectionUpdatePermission request object);
      cbn [andb bind permits_object IsAuthenticatedOn];
      [| split; reflexivity].
    unfold get_selection in E. apply find_some in E. destruct E as (_ & E).
    apply Z.eqb_eq in E. rewrite E. reflexivity.
  - split; reflexivity.
Qed.

Lemma selection_write_views_check_the_object_witness :
  SelectionDeleteView_delete Sample.selection_owner_only
    (Sample.on_object 2 (Some Sample.alice)) Sample.selections
  = (Sample.selections, Raise PermissionDenied) /\
  SelectionDeleteView_delete Sample.selection_owner_only
    (Sample.on_object 1 (Some Sample.alice)) Sample.selections
  = ([Sample.winter], Ok (JsonResponse JNull 204)).
Proof.
  split.
  - apply (selection_write_views_check_the_object Sample.selection_update
             Sample.selection_data Sample.selection_owner_only
             (Sample.on_object 2 (Some Sample.alice)) Sample.selections
             Sample.alice eq_refl eq_refl).
  - apply (selection_write_views_check_the_object Sample.selection_update
             Sample.selection_data Sample.selection_owner_only
             (Sample.on_object 1 (Some Sample.alice)) Sample.selections
             Sample.alice eq_refl eq_refl).
Defined.
